(** * Quality gates of claude-code-usage-rs: coverage and performance regression

    A shallow embedding of the two Python scripts
    [scripts/check_coverage.py] and [scripts/check_performance_regression.py],
    with the properties their specification states about them.

    Modelling conventions.
    - A Python [float] is an exact rational or NaN: the scripts only
      multiply, add, subtract, divide by a positive number and compare, so
      the model keeps the arithmetic and the order on numbers, lets NaN
      spread through the arithmetic and fail every comparison, and leaves
      rounding and the infinities out.
    - A Python [dict] is an association list in insertion order: assigning
      to an existing key keeps the key's position, assigning to a new key
      appends ([dict_set]); [.items()] walks the list.
    - A raised exception is the [Raise] outcome of the [result] type.
    - Formatted f-strings are kept as structured messages that carry the
      values the format string receives. *)

From Stdlib Require Import QArith List String Ascii Bool Lia Lqa.
Import ListNotations.

Set Implicit Arguments.

(** ** Python values *)

Module Py.

(** [float] values: a number, or NaN ([float("nan")], which the XML
    attributes, the JSON files and the command line can all supply). *)
Inductive float : Type :=
| Num (q : Q)
| NaN.

Coercion Num : Q >-> float.

(** The three comparisons the scripts use; each is [False] as soon as one
    side is NaN. *)

(** [x < y] *)
Definition lt (x y : float) : bool :=
  match x, y with
  | Num a, Num b => match a ?= b with Lt => true | _ => false end
  | _, _ => false
  end.

(** [x >= y] *)
Definition ge (x y : float) : bool :=
  match x, y with
  | Num a, Num b => match a ?= b with Lt => false | _ => true end
  | _, _ => false
  end.

(** [x > y] *)
Definition gt (x y : float) : bool :=
  match x, y with
  | Num a, Num b => match a ?= b with Gt => true | _ => false end
  | _, _ => false
  end.

(** The arithmetic: NaN on either side gives NaN. Division is only reached
    with a positive divisor. *)
Definition lift2 (f : Q -> Q -> Q) (x y : float) : float :=
  match x, y with
  | Num a, Num b => Num (f a b)
  | _, _ => NaN
  end.

Definition add : float -> float -> float := lift2 Qplus.
Definition sub : float -> float -> float := lift2 Qminus.
Definition mul : float -> float -> float := lift2 Qmult.
Definition div : float -> float -> float := lift2 Qdiv.

(** The comparisons as propositions: [x < y] says that Python's [x < y] is
    [True], [x <= y] that [y >= x] is, and [x == y] that both are numbers
    and equal. *)
Definition flt (x y : float) : Prop := lt x y = true.
Definition fle (x y : float) : Prop := ge y x = true.
Definition feq (x y : float) : Prop :=
  match x, y with
  | Num a, Num b => a == b
  | _, _ => False
  end.

(** The value is a number. *)
Definition is_number (x : float) : Prop :=
  match x with Num _ => True | NaN => False end.

(** Integer literals denote numbers. *)
Definition float_of_Z (z : Z) : float := Num (inject_Z z).
Definition float_to_Z (x : float) : option Z :=
  match x with
  | Num (z # 1) => Some z
  | _ => None
  end.

Declare Scope float_scope.
Delimit Scope float_scope with float.
Bind Scope float_scope with float.
Number Notation float float_of_Z float_to_Z : float_scope.
Notation "x + y" := (add x y) : float_scope.
Notation "x - y" := (sub x y) : float_scope.
Notation "x * y" := (mul x y) : float_scope.
Notation "x / y" := (div x y) : float_scope.
Notation "x < y" := (flt x y) : float_scope.
Notation "x <= y" := (fle x y) : float_scope.
Notation "x == y" := (feq x y) : float_scope.
Open Scope float_scope.

(** [dict] with [str] keys, in insertion order. *)
Definition dict (V : Type) : Type := list (string * V).

Section Dict.
Variable V : Type.

(** [d.get(k)] *)
Fixpoint dict_get (k : string) (d : dict V) : option V :=
  match d with
  | [] => None
  | (k', v) :: d' => if String.eqb k' k then Some v else dict_get k d'
  end.

(** [d[k] = v] *)
Fixpoint dict_set (k : string) (v : V) (d : dict V) : dict V :=
  match d with
  | [] => [(k, v)]
  | (k', v') :: d' =>
      if String.eqb k' k then (k, v) :: d' else (k', v') :: dict_set k v d'
  end.

(** [list(d.keys())] *)
Definition dict_keys (d : dict V) : list string := map fst d.
End Dict.

(** Exceptions the scripts can let escape. *)
Inductive exn : Type :=
| KeyError (key : string)
| TypeError
| FileNotFoundError
| NotADirectoryError.

Inductive result (A : Type) : Type :=
| Return (a : A)
| Raise (e : exn).
Arguments Return {A} a.
Arguments Raise {A} e.

Definition bind {A B : Type} (m : result A) (k : A -> result B) : result B :=
  match m with
  | Return a => k a
  | Raise e => Raise e
  end.

(** The builtin [float] on plain decimal literals ([83], [0.83], [.5],
    [5.]: digits with at most one point and at least one digit) and on
    [nan]. The builtin reads more than that (signs, exponents, [inf]); the
    examples below only need this much. *)
Definition digit (c : ascii) : option Z :=
  let n := nat_of_ascii c in
  if Nat.leb 48 n && Nat.leb n 57 then Some (Z.of_nat (n - 48)) else None.

Fixpoint read_decimal (s : string) (seen_point : bool) (num : Z) (den : positive)
  (any : bool) : option float :=
  match s with
  | EmptyString => if any then Some (Num (num # den)) else None
  | String c rest =>
      match digit c with
      | Some d =>
          read_decimal rest seen_point (10 * num + d)
            (if seen_point then 10 * den else den)%positive true
      | None =>
          if Ascii.eqb c "."%char && negb seen_point
          then read_decimal rest true num den any
          else None
      end
  end.

Definition float_of_decimal (s : string) : option float :=
  if String.eqb s "nan" then Some NaN else read_decimal s false 0 1 false.

End Py.

Notation "x <- m ;; k" := (Py.bind m (fun x => k))
  (at level 61, m at next level, right associativity).

(** ** scripts/check_coverage.py *)

Module CoverageChecker.
Import Py.

(** *** The XML document, as [xml.etree.ElementTree] presents it *)

#[warnings="-register-all"]
Inductive Element : Type :=
| mkElement (tag : string) (attrib : dict string) (children : list Element).

Definition tag (e : Element) : string :=
  match e with mkElement t _ _ => t end.
Definition attrib (e : Element) : dict string :=
  match e with mkElement _ a _ => a end.
Definition children (e : Element) : list Element :=
  match e with mkElement _ _ c => c end.

(** [e.iter()]: the element itself, then its subtree in document order. *)
Fixpoint iter (e : Element) : list Element :=
  match e with
  | mkElement _ _ cs => e :: flat_map iter cs
  end.

(** [root.findall(".//name")]: ElementPath's descendant step walks
    [root.iter(name)] and drops [root] itself, so only the elements
    strictly below [root] are candidates. *)
Definition findall (root : Element) (name : string) : list Element :=
  filter (fun e => String.eqb (tag e) name) (flat_map iter (children root)).

(** [root.find(".//name")]: the first of them, or [None]. *)
Definition find (root : Element) (name : string) : option Element :=
  hd_error (findall root name).

(** [e.get(key)] *)
Definition get (e : Element) (key : string) : option string :=
  dict_get key (attrib e).

(** *** Data *)

Record package_data : Type := mkPackage {
  line_coverage : float;
  branch_coverage : float
}.

Record raw_rates : Type := mkRaw {
  line_rate : float;
  branch_rate : float
}.

Record coverage_data : Type := mkCoverage {
  overall_line_coverage : float;
  overall_branch_coverage : float;
  packages : dict package_data;
  raw : raw_rates
}.

(** [self.targets] *)
Record targets : Type := mkTargets {
  overall : float;
  line : float;
  branch : float;
  function : float
}.

(** The targets [__init__] installs. *)
Definition default_targets : targets :=
  {| overall := 80; line := 80; branch := 75; function := 85 |}.

(** What the path [self.coverage_file] holds: nothing, or something that
    [ET.parse] either turns into a tree or rejects with an exception. *)
Inductive artifact : Type :=
| Missing
| Present (parsed : option Element).

(** [parse_coverage_report] returns the data or [None]; the three ways to
    [None] differ in the line they print. *)
Inductive load_outcome : Type :=
| Loaded (data : coverage_data)
| FileMissing          (* "file does not exist" *)
| NoCoverageElement    (* "no coverage element found in the report" *)
| ParseFailed.         (* "failed to parse the report: <exception>" *)

(** [package.get("name", "unknown")] *)
Definition package_name (package : Element) : string :=
  match get package "name" with Some n => n | None => "unknown"%string end.

Section Parse.
(** The builtin [float] applied to a string: [None] is [ValueError]. *)
Variable py_float : string -> option float.

(** [float(e.get(key, 0))] *)
Definition rate (e : Element) (key : string) : option float :=
  match get e key with
  | Some s => py_float s
  | None => Some 0
  end.

(** The attribute is absent, or present and a number to [float]. *)
Definition readable (e : Element) (key : string) : Prop :=
  forall s, get e key = Some s -> exists x, py_float s = Some x.

(** Both rates of an element are absent or numbers to [float]. *)
Definition rates_readable (e : Element) : bool :=
  match rate e "line-rate", rate e "branch-rate" with
  | Some _, Some _ => true
  | _, _ => false
  end.

(** One turn of the loop over [root.findall(".//package")]. *)
Definition add_package (acc : option (dict package_data)) (package : Element)
  : option (dict package_data) :=
  match acc with
  | None => None
  | Some packages =>
      let package_name := package_name package in
      match rate package "line-rate" with
      | None => None
      | Some package_line_rate =>
          match rate package "branch-rate" with
          | None => None
          | Some package_branch_rate =>
              Some (dict_set package_name
                      {| line_coverage := package_line_rate * 100;
                         branch_coverage := package_branch_rate * 100 |}
                      packages)
          end
      end
  end.

Definition parse_coverage_report (coverage_file : artifact) : load_outcome :=
  match coverage_file with
  | Missing => FileMissing
  | Present None => ParseFailed
  | Present (Some root) =>
      match find root "coverage" with
      | None => NoCoverageElement
      | Some coverage_element =>
          match rate coverage_element "line-rate" with
          | None => ParseFailed
          | Some line_rate =>
              match rate coverage_element "branch-rate" with
              | None => ParseFailed
              | Some branch_rate =>
                  match fold_left add_package (findall root "package") (Some []) with
                  | None => ParseFailed
                  | Some packages =>
                      Loaded {| overall_line_coverage := line_rate * 100;
                                overall_branch_coverage := branch_rate * 100;
                                packages := packages;
                                raw := {| line_rate := line_rate;
                                          branch_rate := branch_rate |} |}
                  end
              end
          end
      end
  end.
End Parse.

(** *** Evaluation *)

(** The messages [check_coverage] formats, with the values it formats. *)
Inductive message : Type :=
| LineCoverageLow (current target : float)      (* line coverage below target *)
| LineCoverageNear (current : float)            (* line coverage close to target *)
| BranchCoverageLow (current target : float)    (* branch coverage below target *)
| BranchCoverageNear (current : float)          (* branch coverage close to target *)
| PackageCoverageLow (name : string) (current target : float).

(** An entry of [results["details"]]. *)
Record check : Type := mkCheck {
  check_current : float;
  check_target : float;
  check_passed : bool
}.

Record results : Type := mkResults {
  passed : bool;
  failures : list message;
  warnings : list message;
  details : dict check
}.

(** [results["details"][key] = c] *)
Definition set_detail (key : string) (c : check) (r : results) : results :=
  {| passed := passed r; failures := failures r; warnings := warnings r;
     details := dict_set key c (details r) |}.

(** [results["passed"] = False; results["failures"].append(m)] *)
Definition fail (m : message) (r : results) : results :=
  {| passed := false; failures := failures r ++ [m]; warnings := warnings r;
     details := details r |}.

(** [results["warnings"].append(m)] *)
Definition warn (m : message) (r : results) : results :=
  {| passed := passed r; failures := failures r; warnings := warnings r ++ [m];
     details := details r |}.

(** [package_name.startswith("ccusage_rs::")] *)
Definition is_core (package_name : string) : bool :=
  String.prefix "ccusage_rs::" package_name.

(** The target a package is held to: core packages get the higher one. *)
Definition target_coverage (t : targets) (package_name : string) : float :=
  if is_core package_name then function t else line t.

(** The body of the loop over [coverage_data["packages"].items()]. *)
Definition check_package (t : targets) (r : results) (item : string * package_data)
  : results :=
  let (package_name, package_data) := item in
  let package_line_coverage := line_coverage package_data in
  let target_coverage := target_coverage t package_name in
  let package_result :=
    {| check_current := package_line_coverage;
       check_target := target_coverage;
       check_passed := ge package_line_coverage target_coverage |} in
  let r := set_detail ("package_" ++ package_name) package_result r in
  if lt package_line_coverage target_coverage
  then warn (PackageCoverageLow package_name package_line_coverage target_coverage) r
  else r.

(** The overall line check. *)
Definition check_line (t : targets) (cd : coverage_data) (r : results) : results :=
  let line_coverage := overall_line_coverage cd in
  let r := set_detail "line_coverage"
             {| check_current := line_coverage;
                check_target := line t;
                check_passed := ge line_coverage (line t) |} r in
  if lt line_coverage (line t)
  then fail (LineCoverageLow line_coverage (line t)) r
  else if lt line_coverage (line t + 5)
       then warn (LineCoverageNear line_coverage) r
       else r.

(** The overall branch check. *)
Definition check_branch (t : targets) (cd : coverage_data) (r : results) : results :=
  let branch_coverage := overall_branch_coverage cd in
  let r := set_detail "branch_coverage"
             {| check_current := branch_coverage;
                check_target := branch t;
                check_passed := ge branch_coverage (branch t) |} r in
  if lt branch_coverage (branch t)
  then fail (BranchCoverageLow branch_coverage (branch t)) r
  else if lt branch_coverage (branch t + 5)
       then warn (BranchCoverageNear branch_coverage) r
       else r.

Definition empty_results : results :=
  {| passed := true; failures := []; warnings := []; details := [] |}.

Definition check_coverage (t : targets) (cd : coverage_data) : results :=
  let r := empty_results in
  let r := check_line t cd r in
  let r := check_branch t cd r in
  fold_left (check_package t) (packages cd) r.

(** Which check a message reports on. *)
Definition about_line (m : message) : bool :=
  match m with
  | LineCoverageLow _ _ | LineCoverageNear _ => true
  | _ => false
  end.

Definition about_branch (m : message) : bool :=
  match m with
  | BranchCoverageLow _ _ | BranchCoverageNear _ => true
  | _ => false
  end.

Definition about_package (m : message) : bool :=
  match m with
  | PackageCoverageLow _ _ _ => true
  | _ => false
  end.

(** The message is the warning of the package of that name. *)
Definition about_package_named (name : string) (m : message) : bool :=
  match m with
  | PackageCoverageLow n _ _ => String.eqb n name
  | _ => false
  end.

(** The warning a package adds to the list, if any. *)
Definition package_warning (t : targets) (item : string * package_data) : list message :=
  let (package_name, package_data) := item in
  if lt (line_coverage package_data) (target_coverage t package_name)
  then [PackageCoverageLow package_name (line_coverage package_data)
          (target_coverage t package_name)]
  else [].

(** [self.targets[key] = x] for three of the keys. *)
Definition set_overall (x : float) (t : targets) : targets :=
  {| overall := x; line := line t; branch := branch t; function := function t |}.

Definition set_line (x : float) (t : targets) : targets :=
  {| overall := overall t; line := x; branch := branch t; function := function t |}.

Definition set_function (x : float) (t : targets) : targets :=
  {| overall := overall t; line := line t; branch := branch t; function := x |}.

(** *** The command line *)

Record args : Type := mkArgs {
  overall_target : float;
  line_target : float;
  branch_target : float;
  function_target : float;
  json : bool
}.

(** The defaults [argparse] fills in. *)
Definition default_args : args :=
  {| overall_target := 80; line_target := 80; branch_target := 75;
     function_target := 85; json := false |}.

(** The four assignments to [checker.targets] in [main]. *)
Definition targets_of_args (a : args) : targets :=
  {| overall := overall_target a; line := line_target a;
     branch := branch_target a; function := function_target a |}.

(** [main]: the exit status, for the artifact found at [--coverage-file],
    once [argparse] has turned the command line into [a] (a command line it
    rejects ends the program before that, with status 2). Both output modes
    print and then leave with the same status. *)
Definition main (py_float : string -> option float) (a : args)
  (coverage_file : artifact) : nat :=
  match parse_coverage_report py_float coverage_file with
  | Loaded coverage_data =>
      let check_results := check_coverage (targets_of_args a) coverage_data in
      if passed check_results then 0%nat else 1%nat
  | _ => 1%nat
  end.

(** *** Reporting *)

(** The lines [generate_report] collects before joining them with
    newlines; a formatted line carries the values its f-string receives. *)
Inductive report_line : Type :=
| PassedBanner                                   (* coverage check passed *)
| FailedBanner                                   (* coverage check failed *)
| Blank
| OverallHeading
| LineRow (current target : float)
| BranchRow (current target : float)
| PackagesHeading
| PackageRow (name : string) (line_cov branch_cov : float)
| FailuresHeading
| FailureItem (m : message)
| WarningsHeading
| WarningItem (m : message).

(** A heading, one line per item and a blank line; nothing for no items
    ([if items:] is false for an empty list or dict). *)
Definition report_section {A : Type} (heading : report_line) (row : A -> report_line)
  (items : list A) : list report_line :=
  match items with
  | [] => []
  | _ :: _ => heading :: map row items ++ [Blank]
  end.

Definition generate_report (t : targets) (cd : coverage_data) (check_results : results)
  : list report_line :=
  [ (if passed check_results then PassedBanner else FailedBanner);
    Blank;
    OverallHeading;
    LineRow (overall_line_coverage cd) (line t);
    BranchRow (overall_branch_coverage cd) (branch t);
    Blank ]
  ++ report_section PackagesHeading
       (fun item : string * package_data =>
          PackageRow (fst item) (line_coverage (snd item)) (branch_coverage (snd item)))
       (packages cd)
  ++ report_section FailuresHeading FailureItem (failures check_results)
  ++ report_section WarningsHeading WarningItem (warnings check_results).

(** [check_and_report]: the value returned; the report is printed on the
    way. *)
Definition check_and_report (py_float : string -> option float) (t : targets)
  (coverage_file : artifact) : bool :=
  match parse_coverage_report py_float coverage_file with
  | Loaded coverage_data => passed (check_coverage t coverage_data)
  | _ => false
  end.

(** The failure lines of a report. *)
Definition failure_items (report : list report_line) : list message :=
  flat_map (fun l => match l with FailureItem m => [m] | _ => [] end) report.

(** *** Example artifacts *)

(** A report in the Cobertura layout: the [coverage] element is the root. *)
Definition cobertura_report : Element :=
  mkElement "coverage" [("line-rate", "0.83"); ("branch-rate", "0.78")]%string
    [mkElement "packages" [] []].

(** The same rates on a [coverage] element below the root. *)
Definition nested_report : Element :=
  mkElement "report" []
    [mkElement "coverage" [("line-rate", "0.83"); ("branch-rate", "0.78")]%string
       [mkElement "packages" [] []]].

(** A nested report whose [coverage] element has no [line-rate] and whose
    package has no [branch-rate]. *)
Definition sparse_report : Element :=
  mkElement "report" []
    [mkElement "coverage" [("branch-rate", "0.78")]%string
       [mkElement "packages" []
          [mkElement "package" [("name", "ccusage_rs::cli"); ("line-rate", "0.9")]%string
             []]]].

(** A nested report with two package elements of the same name and one
    without a name. *)
Definition repeated_package_report : Element :=
  mkElement "report" []
    [mkElement "coverage" [("line-rate", "0.9"); ("branch-rate", "0.8")]%string
       [mkElement "packages" []
          [mkElement "package"
             [("name", "cli"); ("line-rate", "0.5"); ("branch-rate", "0.5")]%string [];
           mkElement "package" [("line-rate", "0.7")]%string [];
           mkElement "package"
             [("name", "cli"); ("line-rate", "0.95"); ("branch-rate", "0.6")]%string
             []]]].

(** A nested report whose line rate is not a number. *)
Definition nan_report : Element :=
  mkElement "report" []
    [mkElement "coverage" [("line-rate", "nan"); ("branch-rate", "0.9")]%string []].

(** Coverage data of a report with line-rate 0.83, branch-rate 0.78 and no
    packages. *)
Definition near_thresholds : coverage_data :=
  {| overall_line_coverage := 83; overall_branch_coverage := 78;
     packages := [];
     raw := {| line_rate := 83 # 100; branch_rate := 78 # 100 |} |}.

(** Coverage data with two packages, one of them a core package. *)
Definition two_packages : coverage_data :=
  {| overall_line_coverage := 90; overall_branch_coverage := 90;
     packages := [("ccusage_rs::core"%string,
                   {| line_coverage := 82; branch_coverage := 70 |});
                  ("helpers"%string,
                   {| line_coverage := 82; branch_coverage := 70 |})];
     raw := {| line_rate := 9 # 10; branch_rate := 9 # 10 |} |}.

End CoverageChecker.

(** ** scripts/check_performance_regression.py *)

Module PerformanceRegressionChecker.
Import Py.

(** *** Data *)

(** What [json.load] builds. *)
#[warnings="-register-all"]
Inductive json : Type :=
| JNull
| JBool (b : bool)
| JNumber (x : float)
| JString (s : string)
| JArray (items : list json)
| JObject (members : dict json).

(** The declared type of benchmark results, [Dict[str, Any]]. *)
Definition estimates : Type := dict json.

(** [v[key]] for a string key: only a dict can be subscripted so, and only
    at a key it has. *)
Definition subscript (v : json) (key : string) : result json :=
  match v with
  | JObject members =>
      match dict_get key members with
      | Some x => Return x
      | None => Raise (KeyError key)
      end
  | _ => Raise TypeError
  end.

(** A value as an operand of [>], [-] and [/] next to a number: numbers
    and booleans ([True] is 1) qualify, everything else is a [TypeError].
    Integers too large for a float, on which [/] raises [OverflowError],
    are not represented. *)
Definition number (v : json) : result float :=
  match v with
  | JNumber x => Return x
  | JBool b => Return (if b then 1 else 0)
  | _ => Raise TypeError
  end.

(** [self.thresholds] *)
Record thresholds : Type := mkThresholds {
  time : float;
  memory : float
}.

Definition default_thresholds : thresholds :=
  {| time := 10 # 100; memory := 15 # 100 |}.

(** An entry of [comparison["details"]]. *)
Record detail : Type := mkDetail {
  baseline : json;
  current : json;
  change_percent : float;
  threshold : float
}.

Record Comparison : Type := mkComparison {
  time_regression : bool;
  memory_regression : bool;
  time_change : float;
  memory_change : float;
  details : dict detail
}.

Definition empty_comparison : Comparison :=
  {| time_regression := false; memory_regression := false;
     time_change := 0; memory_change := 0; details := [] |}.

(** *** compare_benchmarks *)

(** The block that compares execution time. *)
Definition compare_time (th : thresholds) (baseline_results current_results : estimates)
  (comparison : Comparison) : result Comparison :=
  match dict_get "Mean" baseline_results, dict_get "Mean" current_results with
  | Some baseline_mean, Some current_mean =>
      baseline_time <- subscript baseline_mean "point_estimate" ;;
      current_time <- subscript current_mean "point_estimate" ;;
      b <- number baseline_time ;;
      if gt b 0 then
        c <- number current_time ;;
        let time_change := (c - b) / b in
        Return {| time_regression := gt time_change (time th);
                  memory_regression := memory_regression comparison;
                  time_change := time_change;
                  memory_change := memory_change comparison;
                  details :=
                    dict_set "time"
                      {| baseline := baseline_time; current := current_time;
                         change_percent := time_change * 100;
                         threshold := time th * 100 |}
                      (details comparison) |}
      else Return comparison
  | _, _ => Return comparison
  end.

(** The block that compares memory use. *)
Definition compare_memory (th : thresholds) (baseline_results current_results : estimates)
  (comparison : Comparison) : result Comparison :=
  match dict_get "memory" baseline_results, dict_get "memory" current_results with
  | Some baseline_entry, Some current_entry =>
      baseline_memory <- subscript baseline_entry "point_estimate" ;;
      current_memory <- subscript current_entry "point_estimate" ;;
      b <- number baseline_memory ;;
      if gt b 0 then
        c <- number current_memory ;;
        let memory_change := (c - b) / b in
        Return {| time_regression := time_regression comparison;
                  memory_regression := gt memory_change (memory th);
                  time_change := time_change comparison;
                  memory_change := memory_change;
                  details :=
                    dict_set "memory"
                      {| baseline := baseline_memory; current := current_memory;
                         change_percent := memory_change * 100;
                         threshold := memory th * 100 |}
                      (details comparison) |}
      else Return comparison
  | _, _ => Return comparison
  end.

Definition compare_benchmarks (th : thresholds)
  (baseline_results current_results : estimates) : result Comparison :=
  comparison <- compare_time th baseline_results current_results empty_comparison ;;
  compare_memory th baseline_results current_results comparison.

(** What a metric's entry holds under ["point_estimate"], when the results
    have the entry and the entry has the field. *)
Definition raw_point_estimate (key : string) (results : estimates) : option json :=
  match dict_get key results with
  | Some entry =>
      match subscript entry "point_estimate" with
      | Return x => Some x
      | Raise _ => None
      end
  | None => None
  end.

(** The metric's point-estimate as a number. *)
Definition point_estimate (key : string) (results : estimates) : option float :=
  match raw_point_estimate key results with
  | Some x =>
      match number x with
      | Return q => Some q
      | Raise _ => None
      end
  | None => None
  end.

(** No comparison is possible for a metric: one side has no entry for it, or
    both have their point-estimates and the baseline's is not strictly
    positive (zero, negative or NaN). *)
Definition not_comparable (key : string) (baseline_results current_results : estimates)
  : Prop :=
  dict_get key baseline_results = None
  \/ dict_get key current_results = None
  \/ exists b x,
       point_estimate key baseline_results = Some b /\ ~ 0 < b
       /\ raw_point_estimate key current_results = Some x.

(** The metric's block cannot raise: one side has no entry for it, or both
    entries carry a numeric point-estimate. *)
Definition well_formed (key : string) (baseline_results current_results : estimates)
  : Prop :=
  dict_get key baseline_results = None
  \/ dict_get key current_results = None
  \/ exists b c,
       point_estimate key baseline_results = Some b
       /\ point_estimate key current_results = Some c.

(** *** The criterion directory *)

(** A file holds what [json.load] makes of it: a dict of metrics, or nothing
    when reading it raises [JSONDecodeError] or [IOError]. Files whose bytes
    do not decode as text (the [UnicodeDecodeError] is not caught) and JSON
    documents that are not objects are not represented. *)
#[warnings="-register-all"]
Inductive node : Type :=
| File (content : option estimates)
| Dir (entries : list (string * node)).

Definition is_dir (n : node) : bool :=
  match n with Dir _ => true | File _ => false end.

(** The entry of a directory listing with the given name. *)
Fixpoint entry (name : string) (entries : list (string * node)) : option node :=
  match entries with
  | [] => None
  | (name', n) :: rest => if String.eqb name' name then Some n else entry name rest
  end.

(** [n / path]: the node a relative path leads to, if it exists. *)
Fixpoint resolve (n : node) (path : list string) : option node :=
  match path with
  | [] => Some n
  | name :: rest =>
      match n with
      | Dir entries =>
          match entry name entries with
          | Some child => resolve child rest
          | None => None
          end
      | File _ => None
      end
  end.

(** [load_benchmark_results]; [benchmark_name] is the name split at its
    slashes (["foo/base"] is [["foo"; "base"]]), [criterion_dir] the
    directory node the checker was created on. *)
Definition load_benchmark_results (criterion_dir : node) (benchmark_name : list string)
  : estimates :=
  match resolve criterion_dir (benchmark_name ++ ["new"%string]) with
  | None => []
  | Some _ =>
      match resolve criterion_dir (benchmark_name ++ ["new"; "estimates.json"]%string) with
      | None => []
      | Some (Dir _) => []                 (* open() raises IsADirectoryError *)
      | Some (File None) => []
      | Some (File (Some results)) => results
      end
  end.

(** [not results] for a dict *)
Definition is_empty (results : estimates) : bool :=
  match results with [] => true | _ :: _ => false end.

(** An entry of the regression list. *)
Record regression : Type := mkRegression {
  benchmark : string;
  comparison : Comparison
}.

(** The body of the loop over [benchmark_dirs]: [continue] leaves the list
    as it is. *)
Definition check_benchmark (th : thresholds) (criterion_dir : node)
  (regressions : list regression) (benchmark_name : string)
  : result (list regression) :=
  let baseline_results :=
    load_benchmark_results criterion_dir [benchmark_name; "base"%string] in
  if is_empty baseline_results then Return regressions
  else
    let current_results := load_benchmark_results criterion_dir [benchmark_name] in
    if is_empty current_results then Return regressions
    else
      comparison <- compare_benchmarks th baseline_results current_results ;;
      if time_regression comparison || memory_regression comparison
      then Return (regressions ++ [{| benchmark := benchmark_name;
                                      comparison := comparison |}])
      else Return regressions.

Fixpoint check_each (th : thresholds) (criterion_dir : node)
  (benchmark_dirs : list string) (regressions : list regression)
  : result (list regression) :=
  match benchmark_dirs with
  | [] => Return regressions
  | benchmark_name :: rest =>
      regressions <- check_benchmark th criterion_dir regressions benchmark_name ;;
      check_each th criterion_dir rest regressions
  end.

(** [d.is_dir() and d.name != "base"] *)
Definition is_benchmark_dir (d : string * node) : bool :=
  is_dir (snd d) && negb (String.eqb (fst d) "base").

(** [check_regressions]; [criterion_dir] is what the path holds, [None]
    when nothing is there. [iterdir] raises unless it is a directory. *)
Definition check_regressions (th : thresholds) (criterion_dir : option node)
  : result (list regression) :=
  match criterion_dir with
  | None => Raise FileNotFoundError
  | Some (File _) => Raise NotADirectoryError
  | Some (Dir entries) =>
      let benchmark_dirs := filter is_benchmark_dir entries in
      check_each th (Dir entries) (map fst benchmark_dirs) []
  end.

(** Both the baseline and the current results of a benchmark load non-empty. *)
Definition has_both (criterion_dir : node) (benchmark_name : string) : bool :=
  negb (is_empty (load_benchmark_results criterion_dir [benchmark_name; "base"%string]))
  && negb (is_empty (load_benchmark_results criterion_dir [benchmark_name])).

(** What makes a benchmark an entry of the regression list. *)
Definition regressed (th : thresholds) (criterion_dir : node) (r : regression) : Prop :=
  let baseline_results :=
    load_benchmark_results criterion_dir [benchmark r; "base"%string] in
  let current_results := load_benchmark_results criterion_dir [benchmark r] in
  is_empty baseline_results = false
  /\ is_empty current_results = false
  /\ compare_benchmarks th baseline_results current_results = Return (comparison r)
  /\ (time_regression (comparison r) = true \/ memory_regression (comparison r) = true).

(** *** Reporting and the command line *)

(** The lines of the regression report. *)
Inductive report_line : Type :=
| NoRegressions                                  (* no regression detected *)
| RegressionsHeading
| Blank
| BenchmarkHeading (name : string)
| TimeRow (change_percent threshold : float)
| MemoryRow (change_percent threshold : float).

(** [comparison["details"][key]] *)
Definition details_entry (key : string) (c : Comparison) : result detail :=
  match dict_get key (details c) with
  | Some d => Return d
  | None => Raise (KeyError key)
  end.

(** The lines one regression adds to the report. *)
Definition report_regression (r : regression) : result (list report_line) :=
  let comparison := comparison r in
  time_rows <-
    (if time_regression comparison then
       time_details <- details_entry "time" comparison ;;
       Return [TimeRow (change_percent time_details) (threshold time_details)]
     else Return []) ;;
  memory_rows <-
    (if memory_regression comparison then
       memory_details <- details_entry "memory" comparison ;;
       Return [MemoryRow (change_percent memory_details) (threshold memory_details)]
     else Return []) ;;
  Return (BenchmarkHeading (benchmark r) :: time_rows ++ memory_rows ++ [Blank]).

Fixpoint report_regressions (regressions : list regression) : result (list report_line) :=
  match regressions with
  | [] => Return []
  | r :: rest =>
      rows <- report_regression r ;;
      more <- report_regressions rest ;;
      Return (rows ++ more)
  end.

Definition generate_report (regressions : list regression) : result (list report_line) :=
  match regressions with
  | [] => Return [NoRegressions]
  | _ :: _ =>
      rows <- report_regressions regressions ;;
      Return (RegressionsHeading :: Blank :: rows)
  end.

(** [check_and_report]: the value returned. *)
Definition check_and_report (th : thresholds) (criterion_dir : option node)
  : result bool :=
  regressions <- check_regressions th criterion_dir ;;
  _ <- generate_report regressions ;;
  Return (Nat.eqb (List.length regressions) 0).

Record args : Type := mkArgs {
  time_threshold : float;
  memory_threshold : float;
  json_output : bool                            (* [--json] *)
}.

(** The two assignments to [checker.thresholds] in [main]. *)
Definition thresholds_of_args (a : args) : thresholds :=
  {| time := time_threshold a; memory := memory_threshold a |}.

(** [main]: the exit status, for what [--criterion-dir] holds. The text
    mode renders the report before leaving; the JSON mode dumps the list as
    it is. *)
Definition main (a : args) (criterion_dir : option node) : result nat :=
  regressions <- check_regressions (thresholds_of_args a) criterion_dir ;;
  _ <- (if json_output a then Return [] else generate_report regressions) ;;
  Return (if Nat.eqb (List.length regressions) 0 then 0%nat else 1%nat).

(** The benchmark has both results and its comparison sets a flag. *)
Definition flagged (th : thresholds) (criterion_dir : node) (benchmark_name : string)
  : bool :=
  has_both criterion_dir benchmark_name
  && match compare_benchmarks th
             (load_benchmark_results criterion_dir [benchmark_name; "base"%string])
             (load_benchmark_results criterion_dir [benchmark_name]) with
     | Return c => time_regression c || memory_regression c
     | Raise _ => false
     end.

(** What a metric's block works out before it touches the comparison:
    nothing when the metric is skipped, else the two point-estimates and
    the relative change. Both blocks of [compare_benchmarks] compute
    this, on ["Mean"] and on ["memory"]. *)
Definition metric_change (key : string) (baseline_results current_results : estimates)
  : result (option (json * json * float)) :=
  match dict_get key baseline_results, dict_get key current_results with
  | Some baseline_entry, Some current_entry =>
      baseline_value <- subscript baseline_entry "point_estimate" ;;
      current_value <- subscript current_entry "point_estimate" ;;
      b <- number baseline_value ;;
      if gt b 0 then
        c <- number current_value ;;
        Return (Some (baseline_value, current_value, (c - b) / b))
      else Return None
  | _, _ => Return None
  end.

(** The comparison of a benchmark that has both results does not raise. *)
Definition comparable (th : thresholds) (criterion_dir : node) (benchmark_name : string)
  : Prop :=
  has_both criterion_dir benchmark_name = true ->
  exists cmp,
    compare_benchmarks th
      (load_benchmark_results criterion_dir [benchmark_name; "base"%string])
      (load_benchmark_results criterion_dir [benchmark_name]) = Return cmp.

(** The benchmark names a report shows, read back from its lines. *)
Definition benchmark_headings (report : list report_line) : list string :=
  flat_map (fun l => match l with BenchmarkHeading n => [n] | _ => [] end) report.

(** *** Example artifacts *)

(** An [estimates.json] with a time point-estimate. *)
Definition mean_estimate (x : float) : estimates :=
  [("Mean"%string, JObject [("point_estimate"%string, JNumber x)])].

(** A benchmark directory: current results under [new], and a baseline
    under [base/new] when there is one. *)
Definition benchmark_dir (baseline_time : option float) (current_time : float) : node :=
  Dir ((match baseline_time with
        | Some b =>
            [("base"%string,
              Dir [("new"%string,
                    Dir [("estimates.json"%string, File (Some (mean_estimate b)))])])]
        | None => []
        end) ++
       [("new"%string,
         Dir [("estimates.json"%string, File (Some (mean_estimate current_time)))])]).

(** [foo] slowed down by 15%, [bar] by 5%, [baz] has no baseline, and
    [base] is the reserved directory. *)
Definition example_criterion_dir : node :=
  Dir [("foo"%string, benchmark_dir (Some 100) 115);
       ("base"%string, benchmark_dir (Some 100) 200);
       ("bar"%string, benchmark_dir (Some 100) 105);
       ("baz"%string, benchmark_dir None 300)].

End PerformanceRegressionChecker.

(** * Properties *)

Unset Implicit Arguments.

(** ** Comparisons and dicts *)

Section NumberFacts.
Import Py.

(** *** Comparisons on numbers *)

Lemma lt_num (a b : Q) : lt (Num a) (Num b) = true <-> (a < b)%Q.
Proof.
  cbn [lt]. rewrite Qlt_alt. destruct (a ?= b)%Q; split; congruence.
Qed.

Lemma lt_num_false (a b : Q) : lt (Num a) (Num b) = false <-> (b <= a)%Q.
Proof.
  cbn [lt]. rewrite Qle_alt, <- Qcompare_antisym.
  destruct (b ?= a)%Q; simpl; split; congruence.
Qed.

Lemma ge_num (a b : Q) : ge (Num a) (Num b) = true <-> (b <= a)%Q.
Proof.
  cbn [ge]. rewrite Qle_alt, <- Qcompare_antisym.
  destruct (b ?= a)%Q; simpl; split; congruence.
Qed.

Lemma ge_num_false (a b : Q) : ge (Num a) (Num b) = false <-> (a < b)%Q.
Proof.
  cbn [ge]. rewrite Qlt_alt. destruct (a ?= b)%Q; split; congruence.
Qed.

Lemma gt_num (a b : Q) : gt (Num a) (Num b) = true <-> (b < a)%Q.
Proof.
  cbn [gt]. rewrite Qlt_alt, <- Qcompare_antisym.
  destruct (b ?= a)%Q; simpl; split; congruence.
Qed.

Lemma gt_num_false (a b : Q) : gt (Num a) (Num b) = false <-> (a <= b)%Q.
Proof.
  cbn [gt]. rewrite Qle_alt. destruct (a ?= b)%Q; split; congruence.
Qed.

(** *** NaN *)

Lemma lt_nan_r (x : float) : lt x NaN = false.
Proof. now destruct x. Qed.

Lemma ge_nan_r (x : float) : ge x NaN = false.
Proof. now destruct x. Qed.

Lemma gt_nan_r (x : float) : gt x NaN = false.
Proof. now destruct x. Qed.

Lemma arith_num (f : Q -> Q -> Q) (a b : Q) : lift2 f (Num a) (Num b) = Num (f a b).
Proof. reflexivity. Qed.

Lemma arith_nan_r (f : Q -> Q -> Q) (x : float) : lift2 f x NaN = NaN.
Proof. now destruct x. Qed.

End NumberFacts.

(** Settles a goal about the order of floats: splits every float into a
    number or NaN, drops the cases a comparison with NaN rules out, and
    leaves the rest to linear arithmetic on the rationals. *)
Ltac float_order :=
  unfold Py.flt, Py.fle, Py.feq, Py.is_number, Py.add, Py.sub, Py.mul, Py.div in *;
  repeat match goal with x : Py.float |- _ => destruct x end;
  cbn [Py.lift2 Py.lt Py.ge Py.gt] in *;
  repeat match goal with
    | H : False |- _ => destruct H
    | H : false = true |- _ => discriminate H
    | H : true = false |- _ => discriminate H
    | H : context [match (?a ?= ?b)%Q with _ => _ end] |- _ =>
        first [ change (Py.lt (Py.Num a) (Py.Num b) = true) in H; apply lt_num in H
              | change (Py.lt (Py.Num a) (Py.Num b) = false) in H; apply lt_num_false in H
              | change (Py.ge (Py.Num a) (Py.Num b) = true) in H; apply ge_num in H
              | change (Py.ge (Py.Num a) (Py.Num b) = false) in H; apply ge_num_false in H
              | change (Py.gt (Py.Num a) (Py.Num b) = true) in H; apply gt_num in H
              | change (Py.gt (Py.Num a) (Py.Num b) = false) in H; apply gt_num_false in H ]
    end;
  try match goal with
    | |- match (?a ?= ?b)%Q with _ => _ end = _ =>
        first [ change (Py.lt (Py.Num a) (Py.Num b) = true); apply lt_num
              | change (Py.lt (Py.Num a) (Py.Num b) = false); apply lt_num_false
              | change (Py.ge (Py.Num a) (Py.Num b) = true); apply ge_num
              | change (Py.ge (Py.Num a) (Py.Num b) = false); apply ge_num_false
              | change (Py.gt (Py.Num a) (Py.Num b) = true); apply gt_num
              | change (Py.gt (Py.Num a) (Py.Num b) = false); apply gt_num_false ]
    end;
  try reflexivity; try tauto; try lra.

Section FloatFacts.
Import Py.

(** *** The comparisons as propositions *)

Lemma lt_true (x y : float) : lt x y = true <-> x < y.
Proof. reflexivity. Qed.

Lemma ge_true (x y : float) : ge x y = true <-> y <= x.
Proof. reflexivity. Qed.

Lemma gt_true (x y : float) : gt x y = true <-> y < x.
Proof.
  destruct x as [a|], y as [b|]; unfold flt; cbn [gt lt]; try tauto.
  fold (gt (Num a) (Num b)). fold (lt (Num b) (Num a)).
  now rewrite gt_num, lt_num.
Qed.

(** With NaN about, [x < y] being false no longer means [y <= x]; the
    converse still holds. *)
Lemma lt_false (x y : float) : y <= x -> lt x y = false.
Proof. intros H. float_order. Qed.

Lemma gt_false (x y : float) : x <= y -> gt x y = false.
Proof. intros H. float_order. Qed.

Lemma lt_false_number (x y : float) :
  is_number x -> is_number y -> lt x y = false -> y <= x.
Proof. intros Hx Hy H. float_order. Qed.

Lemma not_flt_gt_false (x y : float) : ~ y < x -> gt x y = false.
Proof.
  intros H. destruct (gt x y) eqn:E; auto. now apply gt_true in E.
Qed.

Lemma ge_false (x y : float) : x < y -> ge x y = false.
Proof. intros H. float_order. Qed.

Lemma ge_negb_lt_number (x y : float) :
  is_number x -> is_number y -> ge x y = negb (lt x y).
Proof.
  destruct x as [a|], y as [b|]; try contradiction. intros _ _.
  cbn [ge lt]. now destruct (a ?= b)%Q.
Qed.

Lemma fle_trans (x y z : float) : x <= y -> y <= z -> x <= z.
Proof. intros H1 H2. float_order. Qed.

Lemma fle_flt_trans (x y z : float) : x <= y -> y < z -> x < z.
Proof. intros H1 H2. float_order. Qed.

(** A value at least five above the target is not below the target. *)
Lemma above_band (v T : float) : T + 5 <= v -> lt v T = false.
Proof. intros H. float_order. Qed.

Lemma dict_get_set_same (V : Type) (k : string) (v : V) (d : dict V) :
  dict_get k (dict_set k v d) = Some v.
Proof.
  induction d as [|[k' v'] d IH]; simpl.
  - now rewrite String.eqb_refl.
  - destruct (String.eqb k' k) eqn:E; simpl; rewrite ?String.eqb_refl, ?E; auto.
Qed.

Lemma dict_get_set_other (V : Type) (k k0 : string) (v : V) (d : dict V) :
  String.eqb k0 k = false -> dict_get k (dict_set k0 v d) = dict_get k d.
Proof.
  intros Hk. induction d as [|[k' v'] d IH]; simpl.
  - now rewrite Hk.
  - destruct (String.eqb k' k0) eqn:E; simpl.
    + apply String.eqb_eq in E. subst k'. now rewrite Hk.
    + now rewrite IH.
Qed.

Lemma dict_get_in (V : Type) (k : string) (v : V) (d : dict V) :
  NoDup (dict_keys d) -> In (k, v) d -> dict_get k d = Some v.
Proof.
  induction d as [|[k' v'] d IH]; simpl; intros Hnd Hin; [contradiction|].
  inversion Hnd as [|? ? Hnotin Hnd']; subst.
  destruct Hin as [Heq|Hin].
  - inversion Heq; subst. now rewrite String.eqb_refl.
  - destruct (String.eqb k' k) eqn:E.
    + apply String.eqb_eq in E. subst k'. exfalso. apply Hnotin.
      change k with (fst (k, v)). now apply in_map.
    + now apply IH.
Qed.

Lemma dict_set_keys (V : Type) (k k' : string) (v : V) (d : dict V) :
  In k' (dict_keys (dict_set k v d)) <-> k' = k \/ In k' (dict_keys d).
Proof.
  induction d as [|[k0 v0] d IH]; simpl.
  - intuition.
  - destruct (String.eqb k0 k) eqn:E; simpl.
    + apply String.eqb_eq in E. subst k0. intuition.
    + rewrite IH. intuition.
Qed.

(** Assignment keeps the keys of a dict distinct. *)
Lemma dict_set_nodup (V : Type) (k : string) (v : V) (d : dict V) :
  NoDup (dict_keys d) -> NoDup (dict_keys (dict_set k v d)).
Proof.
  induction d as [|[k0 v0] d IH]; simpl; intros Hnd.
  - repeat constructor. intros [].
  - inversion Hnd as [|? ? Hnotin Hnd']; subst.
    destruct (String.eqb k0 k) eqn:E; simpl.
    + apply String.eqb_eq in E. subst k0. now constructor.
    + constructor; [|now apply IH].
      rewrite dict_set_keys. intros [->|Hin]; [|contradiction].
      now rewrite String.eqb_refl in E.
Qed.

End FloatFacts.

(** ** The coverage gate *)

Section CoverageFacts.
Import Py CoverageChecker.

(** *** The package loop *)

Lemma check_package_passed t r item :
  passed (check_package t r item) = passed r.
Proof.
  destruct item as [name pd]. unfold check_package.
  now destruct (lt (line_coverage pd) (target_coverage t name)).
Qed.

Lemma check_package_failures t r item :
  failures (check_package t r item) = failures r.
Proof.
  destruct item as [name pd]. unfold check_package.
  now destruct (lt (line_coverage pd) (target_coverage t name)).
Qed.

Lemma check_package_warnings t r item :
  warnings (check_package t r item) = warnings r ++ package_warning t item.
Proof.
  destruct item as [name pd]. unfold check_package, package_warning.
  destruct (lt (line_coverage pd) (target_coverage t name)); simpl; auto.
  now rewrite app_nil_r.
Qed.

Lemma check_package_details t r name pd :
  details (check_package t r (name, pd)) =
  dict_set ("package_" ++ name)
    {| check_current := line_coverage pd;
       check_target := target_coverage t name;
       check_passed := ge (line_coverage pd) (target_coverage t name) |}
    (details r).
Proof.
  unfold check_package.
  now destruct (lt (line_coverage pd) (target_coverage t name)).
Qed.

Lemma packages_passed t pk : forall r,
  passed (fold_left (check_package t) pk r) = passed r.
Proof.
  induction pk as [|item pk IH]; intros r; simpl; auto.
  now rewrite IH, check_package_passed.
Qed.

Lemma packages_failures t pk : forall r,
  failures (fold_left (check_package t) pk r) = failures r.
Proof.
  induction pk as [|item pk IH]; intros r; simpl; auto.
  now rewrite IH, check_package_failures.
Qed.

Lemma packages_warnings t pk : forall r,
  warnings (fold_left (check_package t) pk r) =
  warnings r ++ flat_map (package_warning t) pk.
Proof.
  induction pk as [|item pk IH]; intros r; simpl.
  - now rewrite app_nil_r.
  - now rewrite IH, check_package_warnings, <- app_assoc.
Qed.

Lemma package_warning_about t item m :
  In m (package_warning t item) ->
  about_line m = false /\ about_branch m = false /\ about_package m = true.
Proof.
  destruct item as [name pd]. unfold package_warning.
  destruct (lt (line_coverage pd) (target_coverage t name)); simpl; [|tauto].
  intros [<-|[]]. auto.
Qed.

Lemma filter_package_warnings (f : message -> bool) t pk :
  (forall m, about_package m = true -> f m = false) ->
  filter f (flat_map (package_warning t) pk) = [].
Proof.
  intros Hf. induction pk as [|item pk IH]; simpl; auto.
  rewrite filter_app, IH, app_nil_r.
  destruct item as [name pd]. unfold package_warning.
  destruct (lt (line_coverage pd) (target_coverage t name)); simpl; auto.
  now rewrite Hf.
Qed.

(** The loop leaves alone every entry it has no package for. *)
Lemma packages_details_other t pk key : forall r,
  (forall name, In name (dict_keys pk) -> String.eqb ("package_" ++ name) key = false) ->
  dict_get key (details (fold_left (check_package t) pk r)) = dict_get key (details r).
Proof.
  induction pk as [|[name pd] pk IH]; intros r Hkey; cbn [fold_left]; auto.
  rewrite IH by (intros n Hn; apply Hkey; now right).
  rewrite check_package_details.
  apply dict_get_set_other, Hkey. now left.
Qed.

Lemma package_key_eqb (n m : string) :
  String.eqb ("package_" ++ n) ("package_" ++ m) = String.eqb n m.
Proof. reflexivity. Qed.

Lemma packages_details_package t pk : forall r name pd,
  NoDup (dict_keys pk) -> In (name, pd) pk ->
  dict_get ("package_" ++ name) (details (fold_left (check_package t) pk r)) =
  Some {| check_current := line_coverage pd;
          check_target := target_coverage t name;
          check_passed := ge (line_coverage pd) (target_coverage t name) |}.
Proof.
  induction pk as [|[n p] pk IH]; intros r name pd Hnd Hin; [contradiction|].
  cbn [fold_left]. inversion Hnd as [|? ? Hnotin Hnd']; subst.
  destruct Hin as [Heq|Hin].
  - inversion Heq; subst.
    rewrite packages_details_other, check_package_details.
    + apply dict_get_set_same.
    + intros m Hm. rewrite package_key_eqb. apply String.eqb_neq.
      intros ->. now apply Hnotin.
  - now apply IH.
Qed.

(** *** The two overall checks *)

Lemma check_line_passed t cd r :
  passed (check_line t cd r) =
  passed r && negb (lt (overall_line_coverage cd) (line t)).
Proof.
  unfold check_line.
  destruct (lt (overall_line_coverage cd) (line t)); simpl.
  - now rewrite andb_false_r.
  - rewrite andb_true_r.
    now destruct (lt (overall_line_coverage cd) (line t + 5)).
Qed.

Lemma check_branch_passed t cd r :
  passed (check_branch t cd r) =
  passed r && negb (lt (overall_branch_coverage cd) (branch t)).
Proof.
  unfold check_branch.
  destruct (lt (overall_branch_coverage cd) (branch t)); simpl.
  - now rewrite andb_false_r.
  - rewrite andb_true_r.
    now destruct (lt (overall_branch_coverage cd) (branch t + 5)).
Qed.

(** The flag is set by the two [<] tests and by nothing else. *)
Lemma check_coverage_passed_eq t cd :
  passed (check_coverage t cd) =
  negb (lt (overall_line_coverage cd) (line t))
  && negb (lt (overall_branch_coverage cd) (branch t)).
Proof.
  unfold check_coverage.
  now rewrite packages_passed, check_branch_passed, check_line_passed.
Qed.

Lemma check_line_lists t cd r :
  let v := overall_line_coverage cd in
  failures (check_line t cd r) =
    failures r ++ (if lt v (line t) then [LineCoverageLow v (line t)] else [])
  /\ warnings (check_line t cd r) =
    warnings r ++ (if lt v (line t) then []
                   else if lt v (line t + 5) then [LineCoverageNear v] else [])
  /\ details (check_line t cd r) =
    dict_set "line_coverage"
      {| check_current := v; check_target := line t; check_passed := ge v (line t) |}
      (details r).
Proof.
  unfold check_line.
  destruct (lt (overall_line_coverage cd) (line t));
    [|destruct (lt (overall_line_coverage cd) (line t + 5))];
    simpl; rewrite ?app_nil_r; auto.
Qed.

Lemma check_branch_lists t cd r :
  let v := overall_branch_coverage cd in
  failures (check_branch t cd r) =
    failures r ++ (if lt v (branch t) then [BranchCoverageLow v (branch t)] else [])
  /\ warnings (check_branch t cd r) =
    warnings r ++ (if lt v (branch t) then []
                   else if lt v (branch t + 5) then [BranchCoverageNear v] else [])
  /\ details (check_branch t cd r) =
    dict_set "branch_coverage"
      {| check_current := v; check_target := branch t; check_passed := ge v (branch t) |}
      (details r).
Proof.
  unfold check_branch.
  destruct (lt (overall_branch_coverage cd) (branch t));
    [|destruct (lt (overall_branch_coverage cd) (branch t + 5))];
    simpl; rewrite ?app_nil_r; auto.
Qed.

(** The three lists of a finished check, check by check. *)
Lemma check_coverage_failures t cd :
  let v := overall_line_coverage cd in
  let w := overall_branch_coverage cd in
  failures (check_coverage t cd) =
    (if lt v (line t) then [LineCoverageLow v (line t)] else []) ++
    (if lt w (branch t) then [BranchCoverageLow w (branch t)] else []).
Proof.
  unfold check_coverage. rewrite packages_failures.
  destruct (check_branch_lists t cd (check_line t cd empty_results)) as (-> & _).
  destruct (check_line_lists t cd empty_results) as (-> & _). reflexivity.
Qed.

Lemma check_coverage_warnings t cd :
  let v := overall_line_coverage cd in
  let w := overall_branch_coverage cd in
  warnings (check_coverage t cd) =
    (if lt v (line t) then []
     else if lt v (line t + 5) then [LineCoverageNear v] else []) ++
    (if lt w (branch t) then []
     else if lt w (branch t + 5) then [BranchCoverageNear w] else []) ++
    flat_map (package_warning t) (packages cd).
Proof.
  unfold check_coverage. rewrite packages_warnings.
  destruct (check_branch_lists t cd (check_line t cd empty_results)) as (_ & -> & _).
  destruct (check_line_lists t cd empty_results) as (_ & -> & _).
  simpl. now rewrite <- app_assoc.
Qed.

Lemma check_coverage_details_line t cd :
  dict_get "line_coverage" (details (check_coverage t cd)) =
  Some {| check_current := overall_line_coverage cd; check_target := line t;
          check_passed := ge (overall_line_coverage cd) (line t) |}.
Proof.
  unfold check_coverage. rewrite packages_details_other by reflexivity.
  destruct (check_branch_lists t cd (check_line t cd empty_results)) as (_ & _ & ->).
  rewrite dict_get_set_other by reflexivity.
  destruct (check_line_lists t cd empty_results) as (_ & _ & ->).
  apply dict_get_set_same.
Qed.

Lemma check_coverage_details_branch t cd :
  dict_get "branch_coverage" (details (check_coverage t cd)) =
  Some {| check_current := overall_branch_coverage cd; check_target := branch t;
          check_passed := ge (overall_branch_coverage cd) (branch t) |}.
Proof.
  unfold check_coverage. rewrite packages_details_other by reflexivity.
  destruct (check_branch_lists t cd (check_line t cd empty_results)) as (_ & _ & ->).
  apply dict_get_set_same.
Qed.

End CoverageFacts.

Section CoverageEvaluation.
Import Py CoverageChecker.

(** C2, as the code has it. When the two overall coverages and the line and
    branch targets are numbers, [check_coverage] reports [passed] exactly
    when the overall line coverage reaches the line target and the overall
    branch coverage reaches the branch target. A package never touches
    [passed] or the failures: each turn of the package loop leaves both as
    they were and appends at most its own warning, every package below its
    target has that warning in the outcome, and no failure is about a
    package. *)
Theorem check_coverage_passed_iff (t : targets) (cd : coverage_data) :
  (is_number (overall_line_coverage cd) -> is_number (line t) ->
   is_number (overall_branch_coverage cd) -> is_number (branch t) ->
   (passed (check_coverage t cd) = true <->
      line t <= overall_line_coverage cd /\ branch t <= overall_branch_coverage cd))
  /\ (forall r item,
        passed (check_package t r item) = passed r
        /\ failures (check_package t r item) = failures r
        /\ warnings (check_package t r item) = warnings r ++ package_warning t item)
  /\ (forall name pd,
        In (name, pd) (packages cd) ->
        line_coverage pd < target_coverage t name ->
        In (PackageCoverageLow name (line_coverage pd) (target_coverage t name))
           (warnings (check_coverage t cd)))
  /\ (forall m, In m (failures (check_coverage t cd)) -> about_package m = false).
Proof.
  split; [|split; [|split]].
  - intros Hv HT Hw HTb.
    rewrite check_coverage_passed_eq, andb_true_iff, !negb_true_iff. split.
    + intros [Hl Hb]. split; now apply lt_false_number.
    + intros [Hl Hb]. split; now apply lt_false.
  - intros r item. split; [|split].
    + apply check_package_passed.
    + apply check_package_failures.
    + apply check_package_warnings.
  - intros name pd Hin Hlow. rewrite check_coverage_warnings.
    apply in_or_app. right. apply in_or_app. right.
    apply in_flat_map. exists (name, pd). split; auto.
    unfold package_warning. apply lt_true in Hlow. rewrite Hlow. now left.
  - intros m. rewrite check_coverage_failures.
    destruct (lt (overall_line_coverage cd) (line t));
      destruct (lt (overall_branch_coverage cd) (branch t)); simpl;
      intuition (subst; reflexivity).
Qed.

Lemma check_coverage_passed_iff_witness :
  passed (check_coverage default_targets two_packages) = true
  /\ In (PackageCoverageLow "ccusage_rs::core" 82 85)
        (warnings (check_coverage default_targets two_packages)).
Proof.
  destruct (check_coverage_passed_iff default_targets two_packages)
    as (Hpassed & _ & Hwarn & _).
  split.
  - apply Hpassed; try exact I. split; reflexivity.
  - apply (Hwarn "ccusage_rs::core"%string
             {| line_coverage := 82; branch_coverage := 70 |}).
    + simpl. now left.
    + reflexivity.
Defined.

(** C2 as stated fails at NaN. A report with [line-rate="nan"] loads with
    NaN as its overall line coverage; [nan < 80] is false, so no failure
    is recorded, [passed] stays true and [main] leaves with status 0,
    although the line coverage does not reach the line target (the check's
    own details record the verdict [nan >= 80] as false). *)
Lemma nan_coverage_passes :
  exists cd,
    parse_coverage_report float_of_decimal (Present (Some nan_report)) = Loaded cd
    /\ overall_line_coverage cd = NaN
    /\ passed (check_coverage default_targets cd) = true
    /\ main float_of_decimal default_args (Present (Some nan_report)) = 0%nat
    /\ ~ (line default_targets <= overall_line_coverage cd)
    /\ dict_get "line_coverage" (details (check_coverage default_targets cd)) =
         Some {| check_current := NaN; check_target := 80; check_passed := false |}.
Proof.
  eexists. split; [vm_compute; reflexivity|].
  split; [reflexivity|]. split; [reflexivity|]. split; [reflexivity|].
  split; [discriminate|reflexivity].
Qed.

(** C5. For the overall line check with target [T = line t]: a value with
    [T <= v < T + 5] leaves exactly one line message among the warnings
    (the proximity warning) and none among the failures, records the check
    as passed, and leaves [passed] to the branch check alone; a value with
    [T + 5 <= v] leaves no line message in either list. The same for the
    overall branch check with [T = branch t]. *)
Theorem warning_band (t : targets) (cd : coverage_data) :
  let r := check_coverage t cd in
  let v := overall_line_coverage cd in
  let w := overall_branch_coverage cd in
  (line t <= v -> v < line t + 5 ->
     filter about_line (warnings r) = [LineCoverageNear v]
     /\ filter about_line (failures r) = []
     /\ dict_get "line_coverage" (details r) =
          Some {| check_current := v; check_target := line t; check_passed := true |}
     /\ passed r = negb (lt w (branch t)))
  /\ (line t + 5 <= v ->
        filter about_line (warnings r) = [] /\ filter about_line (failures r) = [])
  /\ (branch t <= w -> w < branch t + 5 ->
        filter about_branch (warnings r) = [BranchCoverageNear w]
        /\ filter about_branch (failures r) = []
        /\ dict_get "branch_coverage" (details r) =
             Some {| check_current := w; check_target := branch t; check_passed := true |}
        /\ passed r = negb (lt v (line t)))
  /\ (branch t + 5 <= w ->
        filter about_branch (warnings r) = [] /\ filter about_branch (failures r) = []).
Proof.
  intros r v w. subst r.
  rewrite check_coverage_warnings, check_coverage_failures,
    check_coverage_details_line, check_coverage_details_branch,
    check_coverage_passed_eq.
  rewrite !filter_app.
  rewrite !filter_package_warnings by (now intros [ ]).
  fold v w.
  split; [|split; [|split]].
  - intros Hlo Hhi.
    assert (Eg : ge v (line t) = true) by now apply ge_true.
    apply lt_false in Hlo. apply lt_true in Hhi. rewrite Hlo, Hhi, Eg.
    destruct (lt w (branch t)); [|destruct (lt w (branch t + 5))]; auto.
  - intros Hhi.
    assert (Hlo : lt v (line t) = false) by now apply above_band.
    apply lt_false in Hhi. rewrite Hlo, Hhi.
    destruct (lt w (branch t)); [|destruct (lt w (branch t + 5))]; auto.
  - intros Hlo Hhi.
    assert (Eg : ge w (branch t) = true) by now apply ge_true.
    apply lt_false in Hlo. apply lt_true in Hhi. rewrite Hlo, Hhi, Eg, andb_true_r.
    destruct (lt v (line t)); [|destruct (lt v (line t + 5))]; auto.
  - intros Hhi.
    assert (Hlo : lt w (branch t) = false) by now apply above_band.
    apply lt_false in Hhi. rewrite Hlo, Hhi.
    destruct (lt v (line t)); [|destruct (lt v (line t + 5))]; auto.
Qed.

Lemma warning_band_witness :
  filter about_line (warnings (check_coverage default_targets near_thresholds))
  = [LineCoverageNear 83]
  /\ filter about_line (failures (check_coverage default_targets near_thresholds)) = [].
Proof.
  destruct (proj1 (warning_band default_targets near_thresholds)) as (Hw & Hf & _).
  - reflexivity.
  - reflexivity.
  - split; [exact Hw|exact Hf].
Defined.

End CoverageEvaluation.

Section CoveragePackages.
Import Py CoverageChecker.

Lemma overall_warnings_not_package t cd m :
  In m ((if lt (overall_line_coverage cd) (line t) then []
         else if lt (overall_line_coverage cd) (line t + 5)
              then [LineCoverageNear (overall_line_coverage cd)] else []) ++
        (if lt (overall_branch_coverage cd) (branch t) then []
         else if lt (overall_branch_coverage cd) (branch t + 5)
              then [BranchCoverageNear (overall_branch_coverage cd)] else [])) ->
  about_package m = false.
Proof.
  intros Hin. apply in_app_or in Hin. destruct Hin as [Hin|Hin].
  - destruct (lt (overall_line_coverage cd) (line t));
      [|destruct (lt (overall_line_coverage cd) (line t + 5))];
      simpl in Hin; intuition (subst; reflexivity).
  - destruct (lt (overall_branch_coverage cd) (branch t));
      [|destruct (lt (overall_branch_coverage cd) (branch t + 5))];
      simpl in Hin; intuition (subst; reflexivity).
Qed.

Lemma package_warning_inv t cd name c T :
  In (PackageCoverageLow name c T) (warnings (check_coverage t cd)) ->
  T = target_coverage t name /\ c < T.
Proof.
  rewrite check_coverage_warnings, app_assoc. intros Hin.
  apply in_app_or in Hin. destruct Hin as [Hin|Hin].
  - apply overall_warnings_not_package in Hin. discriminate.
  - apply in_flat_map in Hin. destruct Hin as ([n p] & _ & Hm).
    unfold package_warning in Hm.
    destruct (lt (line_coverage p) (target_coverage t n)) eqn:E; simpl in Hm;
      [|contradiction].
    destruct Hm as [Hm|[]]. inversion Hm; subst. split; auto.
Qed.

(** C6. A package of the report whose name starts with the core prefix has
    its line coverage checked against the [function] target: that target
    and the verdict against it are what [details] records for the package,
    and the package's warning is there exactly when its coverage is below
    that target. Any other package is checked against the [line] target in
    the same way. The other target plays no part: the turn of the loop for
    a core package is the same under every [line] target, and for any other
    package the same under every [function] target. *)
Theorem core_module_selection (t : targets) (cd : coverage_data)
  (name : string) (pd : package_data) :
  NoDup (dict_keys (packages cd)) ->
  In (name, pd) (packages cd) ->
  let r := check_coverage t cd in
  let T := if is_core name then function t else line t in
  dict_get ("package_" ++ name) (details r) =
    Some {| check_current := line_coverage pd; check_target := T;
            check_passed := ge (line_coverage pd) T |}
  /\ (line_coverage pd < T <->
        In (PackageCoverageLow name (line_coverage pd) T) (warnings r))
  /\ (is_core name = true -> forall x r0,
        check_package (set_line x t) r0 (name, pd) = check_package t r0 (name, pd))
  /\ (is_core name = false -> forall x r0,
        check_package (set_function x t) r0 (name, pd) = check_package t r0 (name, pd)).
Proof.
  intros Hnd Hin r T. subst r.
  change T with (target_coverage t name).
  split; [|split; [|split]].
  - unfold check_coverage. now apply packages_details_package.
  - split.
    + intros Hlow. rewrite check_coverage_warnings.
      apply in_or_app. right. apply in_or_app. right.
      apply in_flat_map. exists (name, pd). split; auto.
      unfold package_warning. apply lt_true in Hlow. rewrite Hlow. now left.
    + intros Hw. now apply package_warning_inv in Hw.
  - intros Hcore x r0. unfold check_package, target_coverage. now rewrite Hcore.
  - intros Hcore x r0. unfold check_package, target_coverage. now rewrite Hcore.
Qed.

Lemma core_module_selection_witness :
  dict_get "package_ccusage_rs::core" (details (check_coverage default_targets two_packages))
  = Some {| check_current := 82; check_target := 85; check_passed := false |}.
Proof.
  refine (proj1 (core_module_selection default_targets two_packages
                   "ccusage_rs::core"
                   {| line_coverage := 82; branch_coverage := 70 |} _ _)).
  - repeat constructor; simpl; intuition discriminate.
  - simpl. now left.
Defined.

(** C9. [check_coverage] never reads the [overall] target: under two target
    sets that agree on [line], [branch] and [function] it returns the same
    results (flag, failures, warnings and details), and [main] leaves with
    the same status whatever [--overall-target] says. *)
Theorem overall_target_unused (t1 t2 : targets) (cd : coverage_data) :
  line t1 = line t2 -> branch t1 = branch t2 -> function t1 = function t2 ->
  check_coverage t1 cd = check_coverage t2 cd
  /\ forall py_float a file x,
       main py_float {| overall_target := x; line_target := line_target a;
                        branch_target := branch_target a;
                        function_target := function_target a; json := json a |} file
       = main py_float a file.
Proof.
  intros Hl Hb Hf. split.
  - destruct t1, t2; simpl in *; subst. reflexivity.
  - intros py_float a file x. reflexivity.
Qed.

Lemma overall_target_unused_witness :
  check_coverage default_targets two_packages =
  check_coverage (set_overall 50 default_targets) two_packages.
Proof.
  refine (proj1 (overall_target_unused default_targets
                   (set_overall 50 default_targets) two_packages _ _ _));
    reflexivity.
Defined.

End CoveragePackages.

(** ** Loading the coverage report *)

Section CoverageLoading.
Import Py CoverageChecker.
Variable py_float : string -> option float.

Lemma rate_missing (e : Element) (key : string) :
  get e key = None -> rate py_float e key = Some 0.
Proof. unfold rate. now intros ->. Qed.

Lemma rate_readable (e : Element) (key : string) :
  readable py_float e key -> exists x, rate py_float e key = Some x.
Proof.
  unfold readable, rate. intros Hr.
  destruct (get e key) as [s|]; eauto.
Qed.

Lemma add_package_inv (d d' : dict package_data) (p : Element) :
  add_package py_float (Some d) p = Some d' ->
  exists l b,
    rate py_float p "line-rate" = Some l /\ rate py_float p "branch-rate" = Some b /\
    d' = dict_set (package_name p)
           {| line_coverage := l * 100; branch_coverage := b * 100 |} d.
Proof.
  unfold add_package.
  destruct (rate py_float p "line-rate") as [l|]; [|discriminate].
  destruct (rate py_float p "branch-rate") as [b|]; [|discriminate].
  intros Heq. inversion Heq. eauto.
Qed.

Lemma add_packages_none (pkgs : list Element) :
  fold_left (add_package py_float) pkgs None = None.
Proof. induction pkgs; simpl; auto. Qed.

Lemma add_packages_some (pkgs : list Element) : forall d,
  (forall p, In p pkgs ->
     readable py_float p "line-rate" /\ readable py_float p "branch-rate") ->
  exists d', fold_left (add_package py_float) pkgs (Some d) = Some d'.
Proof.
  induction pkgs as [|p pkgs IH]; intros d Hr; simpl; eauto.
  destruct (Hr p (or_introl eq_refl)) as [Hl Hb].
  apply rate_readable in Hl, Hb. destruct Hl as [l Hl], Hb as [b Hb].
  rewrite Hl, Hb. apply IH. intros q Hq. apply Hr. now right.
Qed.

Lemma add_packages_other (pkgs : list Element) (n : string) : forall d d',
  fold_left (add_package py_float) pkgs (Some d) = Some d' ->
  (forall q, In q pkgs -> package_name q <> n) ->
  dict_get n d' = dict_get n d.
Proof.
  induction pkgs as [|p pkgs IH]; intros d d' Hfold Hn; cbn [fold_left] in Hfold.
  - now inversion Hfold.
  - destruct (add_package py_float (Some d) p) as [d1|] eqn:E.
    + rewrite (IH d1 d' Hfold) by (intros q Hq; apply Hn; now right).
      apply add_package_inv in E. destruct E as (l & b & _ & _ & ->).
      apply dict_get_set_other, String.eqb_neq, Hn. now left.
    + now rewrite add_packages_none in Hfold.
Qed.

Lemma add_packages_last (before after : list Element) (p : Element) : forall d d',
  fold_left (add_package py_float) (before ++ p :: after) (Some d) = Some d' ->
  (forall q, In q after -> package_name q <> package_name p) ->
  exists l b,
    rate py_float p "line-rate" = Some l /\ rate py_float p "branch-rate" = Some b /\
    dict_get (package_name p) d' =
      Some {| line_coverage := l * 100; branch_coverage := b * 100 |}.
Proof.
  intros d d'. rewrite fold_left_app. cbn [fold_left].
  destruct (fold_left (add_package py_float) before (Some d)) as [d0|].
  - destruct (add_package py_float (Some d0) p) as [d1|] eqn:E.
    + intros Hfold Hafter.
      rewrite (add_packages_other _ _ _ _ Hfold Hafter).
      apply add_package_inv in E. destruct E as (l & b & Hl & Hb & ->).
      exists l, b. repeat split; auto. apply dict_get_set_same.
    + now rewrite add_packages_none.
  - simpl. now rewrite add_packages_none.
Qed.

Lemma parse_loaded_inv (file : artifact) (cd : coverage_data) :
  parse_coverage_report py_float file = Loaded cd ->
  overall_line_coverage cd = line_rate (raw cd) * 100
  /\ overall_branch_coverage cd = branch_rate (raw cd) * 100.
Proof.
  unfold parse_coverage_report.
  destruct file as [|[root|]]; try discriminate.
  destruct (find root "coverage") as [ce|]; try discriminate.
  destruct (rate py_float ce "line-rate"); try discriminate.
  destruct (rate py_float ce "branch-rate"); try discriminate.
  destruct (fold_left _ _ _); try discriminate.
  intros Heq. inversion Heq. auto.
Qed.

Lemma add_packages_nodup (pkgs : list Element) : forall d d',
  fold_left (add_package py_float) pkgs (Some d) = Some d' ->
  NoDup (dict_keys d) -> NoDup (dict_keys d').
Proof.
  induction pkgs as [|p pkgs IH]; intros d d' Hfold Hnd; cbn [fold_left] in Hfold.
  - now inversion Hfold; subst.
  - destruct (add_package py_float (Some d) p) as [d1|] eqn:E.
    + apply (IH d1 d' Hfold).
      apply add_package_inv in E. destruct E as (l & b & _ & _ & ->).
      now apply dict_set_nodup.
    + now rewrite add_packages_none in Hfold.
Qed.

(** The packages of a loaded report have distinct names, as the keys of a
    dict do. *)
Lemma parse_packages_nodup (file : artifact) (cd : coverage_data) :
  parse_coverage_report py_float file = Loaded cd -> NoDup (dict_keys (packages cd)).
Proof.
  unfold parse_coverage_report.
  destruct file as [|[root|]]; try discriminate.
  destruct (find root "coverage") as [ce|]; try discriminate.
  destruct (rate py_float ce "line-rate"); try discriminate.
  destruct (rate py_float ce "branch-rate"); try discriminate.
  destruct (fold_left _ _ _) as [d|] eqn:E; try discriminate.
  intros Heq. inversion Heq. cbn [packages].
  apply (add_packages_nodup _ _ _ E). constructor.
Qed.

(** The "file does not exist" outcome is that of a missing file only. *)
Lemma parse_file_missing (file : artifact) :
  parse_coverage_report py_float file = FileMissing <-> file = Missing.
Proof.
  split; [|now intros ->].
  unfold parse_coverage_report.
  destruct file as [|[root|]]; auto; try discriminate.
  destruct (find root "coverage") as [ce|]; try discriminate.
  destruct (rate py_float ce "line-rate"); try discriminate.
  destruct (rate py_float ce "branch-rate"); try discriminate.
  destruct (fold_left _ _ _); discriminate.
Qed.

(** A [coverage] element at the root is not among the elements [find]
    considers. *)
Lemma coverage_root_not_found (attrs : dict string) (cs : list Element) :
  (forall e, In e (flat_map iter cs) -> tag e <> "coverage"%string) ->
  parse_coverage_report py_float (Present (Some (mkElement "coverage" attrs cs)))
  = NoCoverageElement.
Proof.
  intros Hnone. unfold parse_coverage_report, find, findall. cbn [children].
  assert (E : filter (fun e => String.eqb (tag e) "coverage") (flat_map iter cs) = []).
  { induction (flat_map iter cs) as [|e l IH]; simpl; auto.
    destruct (String.eqb (tag e) "coverage") eqn:Et.
    - apply String.eqb_eq in Et. exfalso. apply (Hnone e); auto. now left.
    - apply IH. intros e' He'. apply Hnone. now right. }
  now rewrite E.
Qed.

End CoverageLoading.

Section CoverageArtifacts.
Import Py CoverageChecker.

(** C10. A missing [line-rate] or [branch-rate] does not reject the report:
    [float(e.get(key, 0))] is 0 for it. When [find] locates the coverage
    element and every rate attribute that is present reads as a number, the
    report loads; an overall rate whose attribute is missing comes out as
    0, and so does a rate of a package element (the entry under its name
    comes from the last package element of that name). *)
Theorem missing_rate_defaults (py_float : string -> option float)
  (root ce : Element) :
  find root "coverage" = Some ce ->
  readable py_float ce "line-rate" ->
  readable py_float ce "branch-rate" ->
  (forall p, In p (findall root "package") ->
     readable py_float p "line-rate" /\ readable py_float p "branch-rate") ->
  exists cd,
    parse_coverage_report py_float (Present (Some root)) = Loaded cd
    /\ (get ce "line-rate" = None -> overall_line_coverage cd = 0)
    /\ (get ce "branch-rate" = None -> overall_branch_coverage cd = 0)
    /\ (forall before p after,
          findall root "package" = before ++ p :: after ->
          (forall q, In q after -> package_name q <> package_name p) ->
          exists pd,
            dict_get (package_name p) (packages cd) = Some pd
            /\ (get p "line-rate" = None -> line_coverage pd = 0)
            /\ (get p "branch-rate" = None -> branch_coverage pd = 0)).
Proof.
  intros Hfind Hl Hb Hpk. unfold parse_coverage_report. rewrite Hfind.
  destruct (rate_readable _ _ _ Hl) as [l El].
  destruct (rate_readable _ _ _ Hb) as [b Eb].
  rewrite El, Eb.
  destruct (add_packages_some _ (findall root "package") ([] : dict package_data) Hpk)
    as [d Ed].
  unfold dict in *. rewrite Ed. eexists. split; [reflexivity|]. cbn [overall_line_coverage
    overall_branch_coverage packages].
  split; [|split].
  - intros Hmiss. rewrite (rate_missing py_float _ _ Hmiss) in El.
    now inversion El.
  - intros Hmiss. rewrite (rate_missing py_float _ _ Hmiss) in Eb.
    now inversion Eb.
  - intros before p after Hsplit Hafter. rewrite Hsplit in Ed.
    destruct (add_packages_last _ _ _ _ _ _ Ed Hafter) as (pl & pb & Epl & Epb & Hget).
    eexists. split; [exact Hget|]. cbn [line_coverage branch_coverage].
    split; intros Hmiss.
    + rewrite (rate_missing py_float _ _ Hmiss) in Epl. now inversion Epl.
    + rewrite (rate_missing py_float _ _ Hmiss) in Epb. now inversion Epb.
Qed.

Lemma missing_rate_defaults_witness :
  exists cd,
    parse_coverage_report float_of_decimal (Present (Some sparse_report)) = Loaded cd
    /\ overall_line_coverage cd = 0.
Proof.
  destruct (missing_rate_defaults float_of_decimal sparse_report
              (mkElement "coverage" [("branch-rate", "0.78")]%string
                 [mkElement "packages" []
                    [mkElement "package"
                       [("name", "ccusage_rs::cli"); ("line-rate", "0.9")]%string []]]))
    as (cd & Hload & Hline & _).
  - reflexivity.
  - intros s Hs. discriminate Hs.
  - intros s Hs. inversion Hs. eexists. reflexivity.
  - intros p [<-|[]]. split; intros s Hs.
    + inversion Hs. eexists. reflexivity.
    + discriminate Hs.
  - exists cd. split; [exact Hload|]. apply Hline. reflexivity.
Defined.

(** C8, as the code has it. Once the artifact loads with overall line-rate
    0.83, branch-rate 0.78 and no packages, the run under the default
    thresholds leaves with status 0 and the check has no failure and two
    warnings, both about proximity: line coverage 83 is within 5 of the
    line target 80, and branch coverage 78 is within 5 of the branch
    target 75. *)
Theorem scenario_B (py_float : string -> option float) (file : artifact)
  (cd : coverage_data) :
  parse_coverage_report py_float file = Loaded cd ->
  line_rate (raw cd) == 83 # 100 ->
  branch_rate (raw cd) == 78 # 100 ->
  packages cd = [] ->
  main py_float default_args file = 0%nat
  /\ failures (check_coverage default_targets cd) = []
  /\ warnings (check_coverage default_targets cd) =
       [LineCoverageNear (overall_line_coverage cd);
        BranchCoverageNear (overall_branch_coverage cd)].
Proof.
  intros Hload Hline Hbranch Hpk.
  destruct (parse_loaded_inv _ _ _ Hload) as [Ev Ew].
  assert (Hv : lt (overall_line_coverage cd) 80 = false
               /\ lt (overall_line_coverage cd) (80 + 5) = true).
  { rewrite Ev. revert Hline. generalize (line_rate (raw cd)).
    intros x Hx. clear - Hx. split; float_order. }
  assert (Hw : lt (overall_branch_coverage cd) 75 = false
               /\ lt (overall_branch_coverage cd) (75 + 5) = true).
  { rewrite Ew. revert Hbranch. generalize (branch_rate (raw cd)).
    intros y Hy. clear - Hy. split; float_order. }
  destruct Hv as [Hv1 Hv2]. destruct Hw as [Hw1 Hw2].
  split; [|split].
  - unfold main. rewrite Hload.
    change (targets_of_args default_args) with default_targets.
    rewrite check_coverage_passed_eq.
    cbn [line branch default_targets]. now rewrite Hv1, Hw1.
  - rewrite check_coverage_failures. cbn [line branch default_targets].
    now rewrite Hv1, Hw1.
  - rewrite check_coverage_warnings. cbn [line branch default_targets].
    now rewrite Hv1, Hv2, Hw1, Hw2, Hpk.
Qed.

Lemma scenario_B_witness :
  main float_of_decimal default_args (Present (Some nested_report)) = 0%nat.
Proof.
  refine (proj1 (scenario_B float_of_decimal (Present (Some nested_report))
                   {| overall_line_coverage := (83 # 100) * 100;
                      overall_branch_coverage := (78 # 100) * 100;
                      packages := [];
                      raw := {| line_rate := 83 # 100; branch_rate := 78 # 100 |} |}
                   _ _ _ _)).
  - vm_compute. reflexivity.
  - reflexivity.
  - reflexivity.
  - reflexivity.
Defined.

(** C8 as stated fails: the nested report with line-rate 0.83, branch-rate
    0.78 and no packages loads and passes, and the check then holds two
    warnings, not one. *)
Lemma scenario_B_two_warnings :
  exists cd,
    parse_coverage_report float_of_decimal (Present (Some nested_report)) = Loaded cd
    /\ main float_of_decimal default_args (Present (Some nested_report)) = 0%nat
    /\ failures (check_coverage default_targets cd) = []
    /\ List.length (warnings (check_coverage default_targets cd)) = 2%nat
    /\ List.length (warnings (check_coverage default_targets cd)) <> 1%nat.
Proof.
  eexists. split; [vm_compute; reflexivity|].
  split; [reflexivity|]. split; [reflexivity|].
  split; [reflexivity|]. vm_compute. discriminate.
Qed.

(** C1 at a report in the Cobertura layout. The file exists and parses, and
    its root is the [coverage] element with both rates; [find] looks below
    the root only, so the element is not found, the report is rejected and
    [main] leaves with status 1. *)
Theorem cobertura_root_rejected :
  find cobertura_report "coverage" = None
  /\ parse_coverage_report float_of_decimal (Present (Some cobertura_report))
     = NoCoverageElement
  /\ main float_of_decimal default_args (Present (Some cobertura_report)) = 1%nat.
Proof.
  assert (E : parse_coverage_report float_of_decimal (Present (Some cobertura_report))
              = NoCoverageElement).
  { apply coverage_root_not_found.
    intros e [<-|[]]. discriminate. }
  split; [reflexivity|]. split; [exact E|].
  unfold main. now rewrite E.
Qed.

End CoverageArtifacts.

(** ** The regression gate *)

Section CompareFacts.
Import Py PerformanceRegressionChecker.

Lemma raw_point_estimate_inv key results x :
  raw_point_estimate key results = Some x ->
  exists entry,
    dict_get key results = Some entry /\ subscript entry "point_estimate" = Return x.
Proof.
  unfold raw_point_estimate.
  destruct (dict_get key results) as [entry|]; [|discriminate].
  destruct (subscript entry "point_estimate") as [y|] eqn:E; [|discriminate].
  intros [= ->]. eauto.
Qed.

Lemma point_estimate_inv key results q :
  point_estimate key results = Some q ->
  exists entry x,
    dict_get key results = Some entry
    /\ subscript entry "point_estimate" = Return x
    /\ number x = Return q.
Proof.
  unfold point_estimate.
  destruct (raw_point_estimate key results) as [x|] eqn:E; [|discriminate].
  destruct (number x) as [y|] eqn:En; [|discriminate].
  intros [= ->]. apply raw_point_estimate_inv in E. destruct E as (entry & ? & ?).
  eauto.
Qed.

(** Rewrites the goal with what the hypotheses say about a metric's entries. *)
Ltac lookups :=
  repeat (match goal with
          | H : dict_get _ _ = Some _ |- _ => rewrite H
          | H : subscript _ _ = Return _ |- _ => rewrite H
          | H : number _ = Return _ |- _ => rewrite H
          end; cbn [bind]).

Ltac entries :=
  repeat match goal with
    | H : point_estimate _ _ = Some _ |- _ =>
        apply point_estimate_inv in H; destruct H as (? & ? & ? & ? & ?)
    | H : raw_point_estimate _ _ = Some _ |- _ =>
        apply raw_point_estimate_inv in H; destruct H as (? & ? & ?)
    end;
  lookups.

Lemma compare_time_skip th base cur cmp0 :
  not_comparable "Mean" base cur -> compare_time th base cur cmp0 = Return cmp0.
Proof.
  unfold not_comparable, compare_time.
  intros [Hb|[Hc|(b & x & Hb & Hle & Hx)]].
  - now rewrite Hb.
  - rewrite Hc. now destruct (dict_get "Mean" base).
  - entries. apply not_flt_gt_false in Hle. now rewrite Hle.
Qed.

Lemma compare_memory_skip th base cur cmp0 :
  not_comparable "memory" base cur -> compare_memory th base cur cmp0 = Return cmp0.
Proof.
  unfold not_comparable, compare_memory.
  intros [Hb|[Hc|(b & x & Hb & Hle & Hx)]].
  - now rewrite Hb.
  - rewrite Hc. now destruct (dict_get "memory" base).
  - entries. apply not_flt_gt_false in Hle. now rewrite Hle.
Qed.

Lemma compare_time_compares th base cur cmp0 b c :
  point_estimate "Mean" base = Some b -> point_estimate "Mean" cur = Some c -> 0 < b ->
  exists d,
    compare_time th base cur cmp0 =
    Return {| time_regression := gt ((c - b) / b) (time th);
              memory_regression := memory_regression cmp0;
              time_change := (c - b) / b;
              memory_change := memory_change cmp0;
              details := dict_set "time" d (details cmp0) |}.
Proof.
  intros Hb Hc Hpos. unfold compare_time. entries.
  apply gt_true in Hpos. rewrite Hpos. lookups. eexists. reflexivity.
Qed.

Lemma compare_memory_compares th base cur cmp0 b c :
  point_estimate "memory" base = Some b -> point_estimate "memory" cur = Some c ->
  0 < b ->
  exists d,
    compare_memory th base cur cmp0 =
    Return {| time_regression := time_regression cmp0;
              memory_regression := gt ((c - b) / b) (memory th);
              time_change := time_change cmp0;
              memory_change := (c - b) / b;
              details := dict_set "memory" d (details cmp0) |}.
Proof.
  intros Hb Hc Hpos. unfold compare_memory. entries.
  apply gt_true in Hpos. rewrite Hpos. lookups. eexists. reflexivity.
Qed.

(** Each block leaves the other metric's fields and details entry alone. *)
Lemma compare_memory_keeps_time th base cur cmp0 cmp :
  compare_memory th base cur cmp0 = Return cmp ->
  time_regression cmp = time_regression cmp0
  /\ time_change cmp = time_change cmp0
  /\ dict_get "time" (details cmp) = dict_get "time" (details cmp0).
Proof.
  unfold compare_memory.
  destruct (dict_get "memory" base) as [bv|]; [|now intros [= <-]].
  destruct (dict_get "memory" cur) as [cv|]; [|now intros [= <-]].
  destruct (subscript bv "point_estimate") as [bj|]; cbn [bind]; [|discriminate].
  destruct (subscript cv "point_estimate") as [cj|]; cbn [bind]; [|discriminate].
  destruct (number bj) as [b|]; cbn [bind]; [|discriminate].
  destruct (gt b 0); [|now intros [= <-]].
  destruct (number cj) as [c|]; cbn [bind]; [|discriminate].
  intros [= <-]. cbn [time_regression time_change memory_regression memory_change details].
  repeat split. now rewrite dict_get_set_other.
Qed.

Lemma compare_time_keeps_memory th base cur cmp0 cmp :
  compare_time th base cur cmp0 = Return cmp ->
  memory_regression cmp = memory_regression cmp0
  /\ memory_change cmp = memory_change cmp0
  /\ dict_get "memory" (details cmp) = dict_get "memory" (details cmp0).
Proof.
  unfold compare_time.
  destruct (dict_get "Mean" base) as [bv|]; [|now intros [= <-]].
  destruct (dict_get "Mean" cur) as [cv|]; [|now intros [= <-]].
  destruct (subscript bv "point_estimate") as [bj|]; cbn [bind]; [|discriminate].
  destruct (subscript cv "point_estimate") as [cj|]; cbn [bind]; [|discriminate].
  destruct (number bj) as [b|]; cbn [bind]; [|discriminate].
  destruct (gt b 0); [|now intros [= <-]].
  destruct (number cj) as [c|]; cbn [bind]; [|discriminate].
  intros [= <-]. cbn [time_regression time_change memory_regression memory_change details].
  repeat split. now rewrite dict_get_set_other.
Qed.

(** A well-formed metric does not raise. *)
Lemma compare_time_returns th base cur cmp0 :
  well_formed "Mean" base cur -> exists cmp, compare_time th base cur cmp0 = Return cmp.
Proof.
  intros [Hb|[Hc|(b & c & Hb & Hc)]].
  - rewrite compare_time_skip; [eauto|now left].
  - rewrite compare_time_skip; [eauto|right; now left].
  - unfold compare_time. entries.
    destruct (gt b 0); lookups; eauto.
Qed.

Lemma compare_memory_returns th base cur cmp0 :
  well_formed "memory" base cur ->
  exists cmp, compare_memory th base cur cmp0 = Return cmp.
Proof.
  intros [Hb|[Hc|(b & c & Hb & Hc)]].
  - rewrite compare_memory_skip; [eauto|now left].
  - rewrite compare_memory_skip; [eauto|right; now left].
  - unfold compare_memory. entries.
    destruct (gt b 0); lookups; eauto.
Qed.

Lemma compare_benchmarks_inv th base cur cmp :
  compare_benchmarks th base cur = Return cmp ->
  exists cmp1,
    compare_time th base cur empty_comparison = Return cmp1
    /\ compare_memory th base cur cmp1 = Return cmp.
Proof.
  unfold compare_benchmarks.
  destruct (compare_time th base cur empty_comparison) as [cmp1|]; simpl;
    [eauto|discriminate].
Qed.

End CompareFacts.

Section Comparison.
Import Py PerformanceRegressionChecker.

Lemma change_not_positive (b c : float) : 0 < b -> c <= b -> (c - b) / b <= 0.
Proof.
  intros Hb Hc. float_order. apply Qle_shift_div_r; lra.
Qed.

(** C3, as the code has it. When both results carry a time point-estimate
    and the baseline [b] is positive, every comparison [compare_benchmarks]
    returns has [time_change = (c - b) / b] and has [time_regression] set
    exactly when that change is strictly above the time threshold; under a
    threshold that is not negative, a current value at or below the
    baseline leaves the flag unset. The comparison is returned whenever the
    memory entries are well formed. The same holds for memory against the
    memory threshold. *)
Theorem regression_iff_change_exceeds (th : thresholds) (base cur : estimates) :
  (forall b c,
     point_estimate "Mean" base = Some b ->
     point_estimate "Mean" cur = Some c ->
     0 < b ->
     (forall cmp, compare_benchmarks th base cur = Return cmp ->
        time_change cmp = (c - b) / b
        /\ (time_regression cmp = true <-> time th < (c - b) / b)
        /\ (0 <= time th -> c <= b -> time_regression cmp = false))
     /\ (well_formed "memory" base cur ->
         exists cmp, compare_benchmarks th base cur = Return cmp))
  /\ (forall b c,
        point_estimate "memory" base = Some b ->
        point_estimate "memory" cur = Some c ->
        0 < b ->
        (forall cmp, compare_benchmarks th base cur = Return cmp ->
           memory_change cmp = (c - b) / b
           /\ (memory_regression cmp = true <-> memory th < (c - b) / b)
           /\ (0 <= memory th -> c <= b -> memory_regression cmp = false))
        /\ (well_formed "Mean" base cur ->
            exists cmp, compare_benchmarks th base cur = Return cmp)).
Proof.
  split; intros b c Hb Hc Hpos; split.
  - intros cmp Hcmp.
    destruct (compare_benchmarks_inv _ _ _ _ Hcmp) as (cmp1 & Htime & Hmem).
    destruct (compare_time_compares th base cur empty_comparison b c Hb Hc Hpos)
      as (d & Hd).
    rewrite Hd in Htime. injection Htime as <-.
    destruct (compare_memory_keeps_time _ _ _ _ _ Hmem) as (-> & -> & _).
    cbn [time_regression time_change]. repeat split.
    + apply gt_true.
    + apply gt_true.
    + intros Hth Hle. apply gt_false.
      apply fle_trans with 0; auto using change_not_positive.
  - intros Hwf. unfold compare_benchmarks.
    destruct (compare_time_compares th base cur empty_comparison b c Hb Hc Hpos)
      as (d & ->).
    simpl. now apply compare_memory_returns.
  - intros cmp Hcmp.
    destruct (compare_benchmarks_inv _ _ _ _ Hcmp) as (cmp1 & Htime & Hmem).
    destruct (compare_memory_compares th base cur cmp1 b c Hb Hc Hpos) as (d & Hd).
    rewrite Hd in Hmem. injection Hmem as <-.
    cbn [memory_regression memory_change]. repeat split.
    + apply gt_true.
    + apply gt_true.
    + intros Hth Hle. apply gt_false.
      apply fle_trans with 0; auto using change_not_positive.
  - intros Hwf. unfold compare_benchmarks.
    destruct (compare_time_returns th base cur empty_comparison Hwf) as (cmp1 & ->).
    simpl.
    destruct (compare_memory_compares th base cur cmp1 b c Hb Hc Hpos) as (d & ->).
    eauto.
Qed.

(** C3 as stated fails under a negative threshold: with [--time-threshold
    -0.5], a current time equal to the baseline is a change of 0, which is
    above the threshold, so the flag is set. *)
Lemma negative_threshold_flags_equal_time :
  let th := {| time := - (1 # 2); memory := 15 # 100 |} in
  point_estimate "Mean" (mean_estimate 100) = Some 100
  /\ 100 <= 100
  /\ exists cmp,
       compare_benchmarks th (mean_estimate 100) (mean_estimate 100) = Return cmp
       /\ time_regression cmp = true.
Proof.
  split; [reflexivity|]. split; [reflexivity|].
  eexists. split; reflexivity.
Qed.

Lemma regression_iff_change_exceeds_witness :
  exists cmp,
    compare_benchmarks default_thresholds (mean_estimate 100) (mean_estimate 115)
    = Return cmp
    /\ time_change cmp = (115 - 100) / 100
    /\ (time_regression cmp = true <-> 10 # 100 < (115 - 100) / 100).
Proof.
  destruct (proj1 (regression_iff_change_exceeds default_thresholds
                     (mean_estimate 100) (mean_estimate 115)) 100 115)
    as (Hall & Hreturns).
  - reflexivity.
  - reflexivity.
  - reflexivity.
  - destruct Hreturns as (cmp & Hcmp).
    + left. reflexivity.
    + exists cmp. destruct (Hall cmp Hcmp) as (Hchange & Hflag & _). auto.
Defined.

(** C7, as the code has it. When no comparison is possible for the time
    metric (the baseline or the current results have no entry for it, or
    both entries carry a point-estimate and the baseline's is not strictly
    positive), the time block of [compare_benchmarks] raises nothing and
    changes nothing, and every comparison returned has [time_change = 0],
    [time_regression = false] and no ["time"] entry in its details. The
    same holds for the memory metric and the memory block. When no
    comparison is possible for either, the untouched comparison is
    returned. *)
Theorem metric_without_comparison (th : thresholds) (base cur : estimates) :
  (not_comparable "Mean" base cur ->
     (forall cmp0, compare_time th base cur cmp0 = Return cmp0)
     /\ (forall cmp, compare_benchmarks th base cur = Return cmp ->
           time_change cmp = 0 /\ time_regression cmp = false
           /\ dict_get "time" (details cmp) = None))
  /\ (not_comparable "memory" base cur ->
        (forall cmp0, compare_memory th base cur cmp0 = Return cmp0)
        /\ (forall cmp, compare_benchmarks th base cur = Return cmp ->
              memory_change cmp = 0 /\ memory_regression cmp = false
              /\ dict_get "memory" (details cmp) = None))
  /\ (not_comparable "Mean" base cur -> not_comparable "memory" base cur ->
        compare_benchmarks th base cur = Return empty_comparison).
Proof.
  split; [|split].
  - intros Hskip. split.
    + intros cmp0. now apply compare_time_skip.
    + intros cmp Hcmp.
      destruct (compare_benchmarks_inv _ _ _ _ Hcmp) as (cmp1 & Htime & Hmem).
      rewrite compare_time_skip in Htime by assumption. injection Htime as <-.
      destruct (compare_memory_keeps_time _ _ _ _ _ Hmem) as (-> & -> & ->).
      repeat split.
  - intros Hskip. split.
    + intros cmp0. now apply compare_memory_skip.
    + intros cmp Hcmp.
      destruct (compare_benchmarks_inv _ _ _ _ Hcmp) as (cmp1 & Htime & Hmem).
      rewrite compare_memory_skip in Hmem by assumption. injection Hmem as <-.
      destruct (compare_time_keeps_memory _ _ _ _ _ Htime) as (-> & -> & ->).
      repeat split.
  - intros Htime Hmem. unfold compare_benchmarks.
    rewrite compare_time_skip by assumption. simpl.
    now apply compare_memory_skip.
Qed.

Lemma metric_without_comparison_witness :
  compare_benchmarks default_thresholds (mean_estimate 0) (mean_estimate 5)
  = Return empty_comparison.
Proof.
  apply (proj2 (proj2 (metric_without_comparison default_thresholds
                         (mean_estimate 0) (mean_estimate 5)))).
  - right. right. exists 0, (JNumber 5).
    split; [reflexivity|]. split; [discriminate|reflexivity].
  - left. reflexivity.
Defined.

(** C7 as stated fails where an entry for the metric is there without its
    ["point_estimate"] field. Such results lack the metric's
    point-estimate, yet [compare_benchmarks] raises [KeyError]: the [in]
    tests find the entry and the subscript fails. The same happens under a
    baseline point-estimate of 0 when the current entry has no field,
    because both subscripts come before the test of the baseline. *)
Lemma entry_without_point_estimate :
  let bare := [("Mean"%string, JObject [])] in
  raw_point_estimate "Mean" bare = None
  /\ compare_benchmarks default_thresholds bare (mean_estimate 5)
     = Raise (KeyError "point_estimate")
  /\ point_estimate "Mean" (mean_estimate 0) = Some 0
  /\ compare_benchmarks default_thresholds (mean_estimate 0) bare
     = Raise (KeyError "point_estimate").
Proof. repeat split. Qed.

End Comparison.

Section Scan.
Import Py PerformanceRegressionChecker.

Lemma check_benchmark_skip th dir regs name :
  has_both dir name = false -> check_benchmark th dir regs name = Return regs.
Proof.
  unfold has_both, check_benchmark. intros H.
  destruct (is_empty (load_benchmark_results dir [name; "base"%string])); auto.
  destruct (is_empty (load_benchmark_results dir [name])); auto.
  discriminate.
Qed.

Lemma check_benchmark_inv th dir regs name regs' :
  check_benchmark th dir regs name = Return regs' ->
  regs' = regs
  \/ exists r, regs' = regs ++ [r] /\ benchmark r = name /\ regressed th dir r.
Proof.
  unfold check_benchmark, regressed.
  destruct (is_empty (load_benchmark_results dir [name; "base"%string])) eqn:Eb;
    [intros [= <-]; now left|].
  destruct (is_empty (load_benchmark_results dir [name])) eqn:Ec;
    [intros [= <-]; now left|].
  destruct (compare_benchmarks th _ _) as [cmp|] eqn:Ecmp; [|discriminate]. simpl.
  destruct (time_regression cmp || memory_regression cmp) eqn:Eflag;
    intros [= <-]; [|now left].
  right. exists {| benchmark := name; comparison := cmp |}. simpl.
  repeat split; auto. now apply orb_true_iff.
Qed.

Lemma check_each_inv th dir names : forall regs regs',
  check_each th dir names regs = Return regs' ->
  forall r, In r regs' ->
    In r regs \/ (In (benchmark r) names /\ regressed th dir r).
Proof.
  induction names as [|name names IH]; intros regs regs' Hscan r Hin;
    cbn [check_each] in Hscan.
  - injection Hscan as <-. now left.
  - destruct (check_benchmark th dir regs name) as [regs1|] eqn:E; [|discriminate].
    simpl in Hscan. destruct (IH _ _ Hscan r Hin) as [Hin1|[Hn Hr]].
    + destruct (check_benchmark_inv _ _ _ _ _ E) as [->|(r1 & -> & Hname & Hr1)].
      * now left.
      * apply in_app_or in Hin1. destruct Hin1 as [Hin1|[<-|[]]].
        -- now left.
        -- right. split; auto. left. now symmetry.
    + right. split; auto. now right.
Qed.

Lemma check_each_has_both th dir names : forall regs,
  check_each th dir names regs =
  check_each th dir (filter (has_both dir) names) regs.
Proof.
  induction names as [|name names IH]; intros regs; cbn [check_each filter]; auto.
  destruct (has_both dir name) eqn:E; cbn [check_each].
  - destruct (check_benchmark th dir regs name); simpl; auto.
  - rewrite check_benchmark_skip by assumption. simpl. apply IH.
Qed.

Lemma benchmark_dirs_inv entries name :
  In name (map fst (filter is_benchmark_dir entries)) ->
  name <> "base"%string /\ exists n, In (name, n) entries /\ is_dir n = true.
Proof.
  intros Hin. apply in_map_iff in Hin. destruct Hin as ([name' n] & <- & Hin).
  apply filter_In in Hin. destruct Hin as [Hin Hdir].
  unfold is_benchmark_dir in Hdir. apply andb_true_iff in Hdir.
  destruct Hdir as [Hdir Hname]. simpl in *. split; eauto.
  apply negb_true_iff, String.eqb_neq in Hname. exact Hname.
Qed.

(** C4. Every entry of the list [check_regressions] returns names a
    directory of the criterion directory other than ["base"], whose
    baseline and current results both loaded non-empty and whose comparison
    has [time_regression] or [memory_regression] set. A benchmark that
    lacks one of the two is passed over by the loop without a change to the
    list and without an exception, and the whole scan is the scan of the
    benchmarks that have both. *)
Theorem regression_set_entries (th : thresholds) (criterion_dir : option node) :
  (forall regs r,
     check_regressions th criterion_dir = Return regs -> In r regs ->
     exists entries n,
       criterion_dir = Some (Dir entries)
       /\ In (benchmark r, n) entries /\ is_dir n = true
       /\ benchmark r <> "base"%string
       /\ regressed th (Dir entries) r)
  /\ (forall dir regs name,
        has_both dir name = false -> check_benchmark th dir regs name = Return regs)
  /\ (forall entries,
        criterion_dir = Some (Dir entries) ->
        check_regressions th criterion_dir =
        check_each th (Dir entries)
          (filter (has_both (Dir entries)) (map fst (filter is_benchmark_dir entries)))
          []).
Proof.
  split; [|split].
  - intros regs r Hscan Hin. unfold check_regressions in Hscan.
    destruct criterion_dir as [[content|entries]|]; try discriminate.
    destruct (check_each_inv _ _ _ _ _ Hscan r Hin) as [[]|[Hname Hr]].
    apply benchmark_dirs_inv in Hname. destruct Hname as (Hbase & n & Hn & Hdir).
    exists entries, n. auto.
  - intros dir regs name. apply check_benchmark_skip.
  - intros entries ->. unfold check_regressions. apply check_each_has_both.
Qed.

Lemma regression_set_entries_witness :
  check_benchmark default_thresholds example_criterion_dir [] "baz" = Return []
  /\ check_regressions default_thresholds (Some example_criterion_dir)
     = check_each default_thresholds example_criterion_dir ["foo"; "bar"]%string [].
Proof.
  destruct (regression_set_entries default_thresholds (Some example_criterion_dir))
    as (_ & Hskip & Hscan).
  split.
  - apply Hskip. reflexivity.
  - apply (Hscan _ eq_refl).
Defined.

(** The example directory: [foo] is the one regression; [bar] is within the
    threshold, [baz] has no baseline and [base] is not a benchmark. *)
Example check_regressions_example :
  exists cmp,
    check_regressions default_thresholds (Some example_criterion_dir)
    = Return [{| benchmark := "foo"; comparison := cmp |}]
    /\ time_regression cmp = true /\ time_change cmp == 15 # 100.
Proof. eexists. split; [vm_compute; reflexivity|]. split; reflexivity. Qed.

End Scan.

(** * Further properties of the coverage gate *)

Section LoadOutcomes.
Import Py CoverageChecker.
Variable py_float : string -> option float.

Lemma add_package_readable (d : dict package_data) (p : Element) :
  rates_readable py_float p = true ->
  exists d', add_package py_float (Some d) p = Some d'.
Proof.
  unfold rates_readable, add_package.
  destruct (rate py_float p "line-rate"); [|discriminate].
  destruct (rate py_float p "branch-rate"); [|discriminate]. eauto.
Qed.

Lemma add_package_unreadable (d : dict package_data) (p : Element) :
  rates_readable py_float p = false -> add_package py_float (Some d) p = None.
Proof.
  unfold rates_readable, add_package.
  destruct (rate py_float p "line-rate"); auto.
  destruct (rate py_float p "branch-rate"); auto. discriminate.
Qed.

(** The package loop gets through exactly when every package is readable. *)
Lemma add_packages_result (pkgs : list Element) : forall d,
  (forallb (rates_readable py_float) pkgs = true ->
   exists d', fold_left (add_package py_float) pkgs (Some d) = Some d')
  /\ (forallb (rates_readable py_float) pkgs = false ->
      fold_left (add_package py_float) pkgs (Some d) = None).
Proof.
  induction pkgs as [|p pkgs IH]; intros d; cbn [forallb fold_left].
  - split; [eauto|discriminate].
  - destruct (rates_readable py_float p) eqn:E; cbn [andb].
    + destruct (add_package_readable d p E) as [d1 ->]. apply IH.
    + rewrite (add_package_unreadable d p E), add_packages_none.
      split; [discriminate|reflexivity].
Qed.

Lemma parse_present (root : Element) :
  match find root "coverage" with
  | None =>
      parse_coverage_report py_float (Present (Some root)) = NoCoverageElement
  | Some ce =>
      if rates_readable py_float ce
         && forallb (rates_readable py_float) (findall root "package")
      then exists cd, parse_coverage_report py_float (Present (Some root)) = Loaded cd
      else parse_coverage_report py_float (Present (Some root)) = ParseFailed
  end.
Proof.
  cbn [parse_coverage_report].
  destruct (find root "coverage") as [ce|]; [|reflexivity].
  unfold rates_readable at 1.
  destruct (rate py_float ce "line-rate") as [l|]; [|reflexivity].
  destruct (rate py_float ce "branch-rate") as [b|]; [|reflexivity].
  cbn [andb].
  destruct (forallb (rates_readable py_float) (findall root "package")) eqn:Ep.
  - destruct (proj1 (add_packages_result (findall root "package") []) Ep) as [d Ed].
    unfold dict in *. rewrite Ed. eauto.
  - pose proof (proj2 (add_packages_result (findall root "package") []) Ep) as Ed.
    unfold dict in *. now rewrite Ed.
Qed.

Ltac outcome :=
  repeat match goal with
    | H : exists _, _ |- _ => destruct H
    | H : _ /\ _ |- _ => destruct H
    | H : _ \/ _ |- _ => destruct H
    | H : Present _ = Present _ |- _ => inversion H; clear H; subst
    end;
  try discriminate; try congruence; eauto 8.

(** X1. The four outcomes of [parse_coverage_report], each by the inputs
    that lead to it: "file missing" for a missing file only; "no coverage
    element" for a parsed document with no [coverage] element below its
    root; "parse failed" for a file [ET.parse] rejects or a document where
    the coverage element or a package element has a rate that is not a
    number; and a loaded report in the remaining case, where the coverage
    element is found and all rates are readable. *)
Theorem parse_outcome_cases (file : artifact) :
  (parse_coverage_report py_float file = FileMissing <-> file = Missing)
  /\ (parse_coverage_report py_float file = NoCoverageElement <->
      exists root, file = Present (Some root) /\ find root "coverage" = None)
  /\ (parse_coverage_report py_float file = ParseFailed <->
      file = Present None
      \/ exists root ce,
           file = Present (Some root) /\ find root "coverage" = Some ce
           /\ rates_readable py_float ce
              && forallb (rates_readable py_float) (findall root "package") = false)
  /\ ((exists cd, parse_coverage_report py_float file = Loaded cd) <->
      exists root ce,
        file = Present (Some root) /\ find root "coverage" = Some ce
        /\ rates_readable py_float ce
           && forallb (rates_readable py_float) (findall root "package") = true).
Proof.
  destruct file as [|[root|]].
  - cbn [parse_coverage_report]. repeat split; intros; outcome.
  - pose proof (parse_present root) as Hp.
    destruct (find root "coverage") as [ce|] eqn:Ef.
    + destruct (rates_readable py_float ce
                && forallb (rates_readable py_float) (findall root "package")) eqn:Eok.
      * destruct Hp as [cd Hp]. rewrite Hp. repeat split; intros; outcome.
      * rewrite Hp. repeat split; intros; outcome.
    + rewrite Hp. repeat split; intros; outcome.
  - cbn [parse_coverage_report]. repeat split; intros; outcome.
Qed.

End LoadOutcomes.

Section LoadedReport.
Import Py CoverageChecker.
Variable py_float : string -> option float.

Lemma parse_loaded_parts (root : Element) (cd : coverage_data) :
  parse_coverage_report py_float (Present (Some root)) = Loaded cd ->
  exists ce l b d,
    find root "coverage" = Some ce
    /\ rate py_float ce "line-rate" = Some l
    /\ rate py_float ce "branch-rate" = Some b
    /\ fold_left (add_package py_float) (findall root "package") (Some []) = Some d
    /\ cd = {| overall_line_coverage := l * 100;
               overall_branch_coverage := b * 100;
               packages := d;
               raw := {| line_rate := l; branch_rate := b |} |}.
Proof.
  cbn [parse_coverage_report].
  destruct (find root "coverage") as [ce|] eqn:Ef; [|discriminate].
  destruct (rate py_float ce "line-rate") as [l|] eqn:El; [|discriminate].
  destruct (rate py_float ce "branch-rate") as [b|] eqn:Eb; [|discriminate].
  destruct (fold_left _ _ _) as [d|] eqn:E; [|discriminate].
  intros [= <-]. exists ce, l, b, d. repeat split; assumption.
Qed.

Lemma add_packages_keys (pkgs : list Element) : forall d d',
  fold_left (add_package py_float) pkgs (Some d) = Some d' ->
  forall n, In n (dict_keys d') <->
            In n (dict_keys d) \/ exists p, In p pkgs /\ package_name p = n.
Proof.
  induction pkgs as [|p pkgs IH]; intros d d' Hfold n; cbn [fold_left] in Hfold.
  - inversion Hfold; subst. split; [auto|]. intros [H|(p & [] & _)]. exact H.
  - destruct (add_package py_float (Some d) p) as [d1|] eqn:E;
      [|now rewrite add_packages_none in Hfold].
    rewrite (IH d1 d' Hfold n).
    apply add_package_inv in E. destruct E as (l & b & _ & _ & ->).
    rewrite dict_set_keys. split.
    + intros [[->|H]|(q & Hq & Hn)].
      * right. exists p. split; [now left|reflexivity].
      * now left.
      * right. exists q. split; [now right|assumption].
    + intros [H|(q & [<-|Hq] & Hn)].
      * left. now right.
      * left. left. now symmetry.
      * right. exists q. auto.
Qed.

Lemma dict_get_set_inv (V : Type) (k k0 : string) (v v0 : V) (d : dict V) :
  dict_get k (dict_set k0 v0 d) = Some v ->
  (k = k0 /\ v = v0) \/ dict_get k d = Some v.
Proof.
  destruct (String.eqb k0 k) eqn:E.
  - apply String.eqb_eq in E. subst k0. rewrite dict_get_set_same.
    intros [= <-]. now left.
  - rewrite dict_get_set_other by assumption. now right.
Qed.

Lemma add_packages_values (pkgs : list Element) : forall d d',
  fold_left (add_package py_float) pkgs (Some d) = Some d' ->
  forall n pd, dict_get n d' = Some pd ->
    dict_get n d = Some pd
    \/ exists p l b,
         In p pkgs /\ package_name p = n
         /\ rate py_float p "line-rate" = Some l
         /\ rate py_float p "branch-rate" = Some b
         /\ pd = {| line_coverage := l * 100; branch_coverage := b * 100 |}.
Proof.
  induction pkgs as [|p pkgs IH]; intros d d' Hfold n pd Hget; cbn [fold_left] in Hfold.
  - inversion Hfold; subst. now left.
  - destruct (add_package py_float (Some d) p) as [d1|] eqn:E;
      [|now rewrite add_packages_none in Hfold].
    destruct (IH d1 d' Hfold n pd Hget) as [H|(q & l & b & Hq & H)].
    + apply add_package_inv in E. destruct E as (l & b & Hl & Hb & ->).
      apply dict_get_set_inv in H. destruct H as [[-> ->]|H]; [|now left].
      right. exists p, l, b. repeat split; auto. now left.
    + right. exists q, l, b. split; [now right|assumption].
Qed.

(** X2. What a loaded report holds. The raw rates are those read from the
    coverage element and the overall coverages are 100 times the raw
    rates; the package names are distinct and are exactly the names of the
    package elements below the root; and the coverages stored under a name
    are 100 times the rates of a package element of that name. *)
Theorem loaded_report_shape (root : Element) (cd : coverage_data) :
  parse_coverage_report py_float (Present (Some root)) = Loaded cd ->
  (exists ce,
     find root "coverage" = Some ce
     /\ rate py_float ce "line-rate" = Some (line_rate (raw cd))
     /\ rate py_float ce "branch-rate" = Some (branch_rate (raw cd)))
  /\ overall_line_coverage cd = line_rate (raw cd) * 100
  /\ overall_branch_coverage cd = branch_rate (raw cd) * 100
  /\ NoDup (dict_keys (packages cd))
  /\ (forall n, In n (dict_keys (packages cd)) <->
                exists p, In p (findall root "package") /\ package_name p = n)
  /\ (forall n pd, dict_get n (packages cd) = Some pd ->
        exists p l b,
          In p (findall root "package") /\ package_name p = n
          /\ rate py_float p "line-rate" = Some l
          /\ rate py_float p "branch-rate" = Some b
          /\ line_coverage pd = l * 100 /\ branch_coverage pd = b * 100).
Proof.
  intros Hload. pose proof (parse_packages_nodup _ _ _ Hload) as Hnd.
  destruct (parse_loaded_parts _ _ Hload) as (ce & l & b & d & Hf & Hl & Hb & Hd & ->).
  cbn [raw line_rate branch_rate overall_line_coverage overall_branch_coverage
         packages] in *.
  split; [eauto|]. repeat (split; [reflexivity || assumption|]).
  split.
  - intros n. rewrite (add_packages_keys _ _ _ Hd n). cbn. tauto.
  - intros n pd Hget.
    destruct (add_packages_values _ _ _ Hd n pd Hget)
      as [H|(p & pl & pb & Hp & Hn & Hpl & Hpb & ->)]; [discriminate|].
    exists p, pl, pb. auto 8.
Qed.

(** X3. When several package elements carry the same name, the report
    keeps one entry for the name and it holds the rates of the last of
    them (times 100). *)
Theorem later_package_overrides (root : Element) (cd : coverage_data)
  (before after : list Element) (p : Element) :
  parse_coverage_report py_float (Present (Some root)) = Loaded cd ->
  findall root "package" = before ++ p :: after ->
  (forall q, In q after -> package_name q <> package_name p) ->
  exists l b,
    rate py_float p "line-rate" = Some l
    /\ rate py_float p "branch-rate" = Some b
    /\ dict_get (package_name p) (packages cd) =
         Some {| line_coverage := l * 100; branch_coverage := b * 100 |}.
Proof.
  intros Hload Hsplit Hafter.
  destruct (parse_loaded_parts _ _ Hload) as (ce & l & b & d & _ & _ & _ & Hd & ->).
  cbn [packages]. rewrite Hsplit in Hd.
  exact (add_packages_last _ _ _ _ _ _ Hd Hafter).
Qed.

End LoadedReport.

Section LoadedReportExamples.
Import Py CoverageChecker.

Lemma loaded_report_shape_witness :
  exists cd,
    parse_coverage_report float_of_decimal (Present (Some repeated_package_report))
    = Loaded cd
    /\ (In "unknown"%string (dict_keys (packages cd)) <->
        exists p, In p (findall repeated_package_report "package")
                  /\ package_name p = "unknown"%string).
Proof.
  eexists. split; [vm_compute; reflexivity|].
  refine (proj1 (proj2 (proj2 (proj2 (proj2
            (loaded_report_shape float_of_decimal repeated_package_report _ _))))) _).
  vm_compute. reflexivity.
Defined.

Lemma later_package_overrides_witness :
  exists cd,
    parse_coverage_report float_of_decimal (Present (Some repeated_package_report))
    = Loaded cd
    /\ exists l b,
         dict_get "cli" (packages cd) =
           Some {| line_coverage := l * 100; branch_coverage := b * 100 |}
         /\ float_of_decimal "0.95" = Some l /\ float_of_decimal "0.6" = Some b.
Proof.
  eexists. split; [vm_compute; reflexivity|].
  destruct (later_package_overrides float_of_decimal repeated_package_report _
              [mkElement "package"
                 [("name", "cli"); ("line-rate", "0.5"); ("branch-rate", "0.5")]%string [];
               mkElement "package" [("line-rate", "0.7")]%string []]
              []
              (mkElement "package"
                 [("name", "cli"); ("line-rate", "0.95"); ("branch-rate", "0.6")]%string [])
              eq_refl eq_refl)
    as (l & b & Hl & Hb & Hget).
  - intros q [].
  - exists l, b. split; [exact Hget|]. split; [exact Hl|exact Hb].
Defined.

End LoadedReportExamples.

Section CheckResults.
Import Py CoverageChecker.

Lemma dict_set_new_key (V : Type) (k : string) (v : V) (d : dict V) :
  ~ In k (dict_keys d) -> dict_keys (dict_set k v d) = dict_keys d ++ [k].
Proof.
  induction d as [|[k0 v0] d IH]; simpl; intros Hnew; auto.
  destruct (String.eqb k0 k) eqn:E.
  - apply String.eqb_eq in E. subst k0. exfalso. apply Hnew. now left.
  - simpl. f_equal. apply IH. intros Hin. apply Hnew. now right.
Qed.

Lemma package_key_inj (n m : string) :
  ("package_" ++ n)%string = ("package_" ++ m)%string -> n = m.
Proof.
  intros H. apply String.eqb_eq. rewrite <- package_key_eqb.
  now apply String.eqb_eq.
Qed.

Lemma packages_details_keys t pk : forall r,
  NoDup (dict_keys pk) ->
  (forall n, In n (dict_keys pk) ->
     ~ In ("package_" ++ n)%string (dict_keys (details r))) ->
  dict_keys (details (fold_left (check_package t) pk r)) =
  dict_keys (details r) ++ map (String.append "package_") (dict_keys pk).
Proof.
  induction pk as [|[n pd] pk IH]; intros r Hnd Hfresh; cbn [fold_left].
  - simpl. now rewrite app_nil_r.
  - inversion Hnd as [|? ? Hnotin Hnd']; subst.
    assert (Hkeys : dict_keys (details (check_package t r (n, pd))) =
                    dict_keys (details r) ++ [("package_" ++ n)%string]).
    { rewrite check_package_details. apply dict_set_new_key.
      apply Hfresh. now left. }
    rewrite IH; auto.
    + rewrite Hkeys. simpl. now rewrite <- app_assoc.
    + intros m Hm. rewrite Hkeys. intros Hin. apply in_app_or in Hin.
      destruct Hin as [Hin|[Heq|[]]].
      * apply (Hfresh m); [now right|assumption].
      * apply package_key_inj in Heq. subst m. now apply Hnotin.
Qed.

(** X4. The details of a check have one entry per check, in the order the
    checks run: the overall line check, the overall branch check, then one
    entry ["package_<name>"] for each package of the report, in the
    report's order. *)
Theorem check_coverage_details_keys (t : targets) (cd : coverage_data) :
  NoDup (dict_keys (packages cd)) ->
  dict_keys (details (check_coverage t cd)) =
  "line_coverage"%string :: "branch_coverage"%string
    :: map (String.append "package_") (dict_keys (packages cd)).
Proof.
  intros Hnd. unfold check_coverage.
  destruct (check_branch_lists t cd (check_line t cd empty_results)) as (_ & _ & Hb).
  destruct (check_line_lists t cd empty_results) as (_ & _ & Hl).
  rewrite packages_details_keys; auto.
  - rewrite Hb, Hl. reflexivity.
  - intros n _. rewrite Hb, Hl. simpl.
    intros [H|[H|[]]]; discriminate.
Qed.

Lemma check_coverage_details_keys_witness :
  dict_keys (details (check_coverage default_targets two_packages)) =
  ["line_coverage"; "branch_coverage"; "package_ccusage_rs::core";
   "package_helpers"]%string.
Proof.
  apply (check_coverage_details_keys default_targets two_packages).
  repeat constructor; simpl; intuition discriminate.
Defined.

(** X5. The gate's flag agrees with the failures: [passed] is true exactly
    when the list of failures is empty, and false exactly when the overall
    line coverage is below the line target or the overall branch coverage
    is below the branch target. Against the verdicts stored under
    ["line_coverage"] and ["branch_coverage"]: when both are true, so is
    [passed]; when the coverages and targets are numbers, [passed] is
    their conjunction. (With a NaN a stored verdict is false while
    [passed] stays true.) The verdicts stored for packages do not enter. *)
Theorem passed_iff_no_failures (t : targets) (cd : coverage_data) :
  let r := check_coverage t cd in
  let v := overall_line_coverage cd in
  let w := overall_branch_coverage cd in
  (passed r = true <-> failures r = [])
  /\ (passed r = false <-> v < line t \/ w < branch t)
  /\ exists cl cb,
       dict_get "line_coverage" (details r) = Some cl
       /\ dict_get "branch_coverage" (details r) = Some cb
       /\ (check_passed cl && check_passed cb = true -> passed r = true)
       /\ (is_number v -> is_number (line t) -> is_number w -> is_number (branch t) ->
           passed r = check_passed cl && check_passed cb).
Proof.
  intros r v w. subst r. split; [|split].
  - rewrite check_coverage_passed_eq, check_coverage_failures.
    destruct (lt (overall_line_coverage cd) (line t));
      destruct (lt (overall_branch_coverage cd) (branch t)); simpl;
      split; congruence.
  - rewrite check_coverage_passed_eq. unfold flt. fold v w.
    destruct (lt v (line t)); destruct (lt w (branch t)); simpl;
      intuition congruence.
  - eexists. eexists.
    split; [apply check_coverage_details_line|].
    split; [apply check_coverage_details_branch|].
    cbn [check_passed]. rewrite check_coverage_passed_eq. fold v w. split.
    + rewrite andb_true_iff. intros [Hl Hb].
      now rewrite (lt_false _ _ Hl), (lt_false _ _ Hb).
    + intros Hv HT Hw HTb. now rewrite !ge_negb_lt_number.
Qed.

(** X6. An overall value below its target fails the gate: [passed] is
    false, the failure for that check is listed with the value and the
    target, the check leaves no warning, and its recorded verdict is
    false. This holds for the line check and for the branch check. *)
Theorem below_target_fails (t : targets) (cd : coverage_data) :
  let r := check_coverage t cd in
  let v := overall_line_coverage cd in
  let w := overall_branch_coverage cd in
  (v < line t ->
     passed r = false
     /\ filter about_line (failures r) = [LineCoverageLow v (line t)]
     /\ filter about_line (warnings r) = []
     /\ dict_get "line_coverage" (details r) =
          Some {| check_current := v; check_target := line t; check_passed := false |})
  /\ (w < branch t ->
        passed r = false
        /\ filter about_branch (failures r) = [BranchCoverageLow w (branch t)]
        /\ filter about_branch (warnings r) = []
        /\ dict_get "branch_coverage" (details r) =
             Some {| check_current := w; check_target := branch t;
                     check_passed := false |}).
Proof.
  intros r v w. subst r.
  rewrite check_coverage_warnings, check_coverage_failures,
    check_coverage_details_line, check_coverage_details_branch,
    check_coverage_passed_eq.
  rewrite !filter_app.
  rewrite !filter_package_warnings by (now intros [ ]).
  fold v w. split.
  - intros Hlow. rewrite (ge_false _ _ Hlow). apply lt_true in Hlow. rewrite Hlow.
    destruct (lt w (branch t)); [|destruct (lt w (branch t + 5))]; auto.
  - intros Hlow. rewrite (ge_false _ _ Hlow). apply lt_true in Hlow.
    rewrite Hlow, andb_false_r.
    destruct (lt v (line t)); [|destruct (lt v (line t + 5))]; auto.
Qed.

Lemma below_target_fails_witness :
  passed (check_coverage default_targets
            {| overall_line_coverage := 72; overall_branch_coverage := 78;
               packages := [];
               raw := {| line_rate := 72 # 100; branch_rate := 78 # 100 |} |}) = false.
Proof.
  refine (proj1 (proj1 (below_target_fails default_targets _) _)).
  reflexivity.
Defined.

(** X7. The gate is monotone: a report that passes still passes when its
    overall line and branch coverage go up, or when the line and branch
    targets go down. *)
Theorem coverage_gate_monotone (t t' : targets) (cd cd' : coverage_data) :
  line t' <= line t -> branch t' <= branch t ->
  overall_line_coverage cd <= overall_line_coverage cd' ->
  overall_branch_coverage cd <= overall_branch_coverage cd' ->
  passed (check_coverage t cd) = true ->
  passed (check_coverage t' cd') = true.
Proof.
  intros Hl Hb Hv Hw.
  rewrite !check_coverage_passed_eq, !andb_true_iff, !negb_true_iff.
  revert Hl Hb Hv Hw.
  generalize (line t) (line t') (branch t) (branch t')
    (overall_line_coverage cd) (overall_line_coverage cd')
    (overall_branch_coverage cd) (overall_branch_coverage cd').
  intros T T' B B' v v' w w' Hl Hb Hv Hw [H1 H2].
  clear t t' cd cd'. split.
  - clear Hb Hw H2 B B' w w'. float_order.
  - clear Hl Hv H1 T T' v v'. float_order.
Qed.

Lemma coverage_gate_monotone_witness :
  passed (check_coverage (set_line 70 default_targets) two_packages) = true.
Proof.
  apply (coverage_gate_monotone default_targets (set_line 70 default_targets)
           near_thresholds two_packages); reflexivity.
Defined.

Lemma filter_named_absent t name pk :
  ~ In name (dict_keys pk) ->
  filter (about_package_named name) (flat_map (package_warning t) pk) = [].
Proof.
  induction pk as [|[n pd] pk IH]; intros Hnotin; [reflexivity|].
  cbn [flat_map]. rewrite filter_app, IH, app_nil_r.
  - unfold package_warning.
    destruct (lt (line_coverage pd) (target_coverage t n)); [|reflexivity].
    cbn [filter about_package_named].
    destruct (String.eqb n name) eqn:E; [|reflexivity].
    apply String.eqb_eq in E. exfalso. apply Hnotin. now left.
  - intros Hin. apply Hnotin. now right.
Qed.

Lemma filter_named_once t name pk :
  NoDup (dict_keys pk) ->
  (List.length (filter (about_package_named name) (flat_map (package_warning t) pk))
   <= 1)%nat.
Proof.
  induction pk as [|[n pd] pk IH]; intros Hnd; [simpl; lia|].
  inversion Hnd as [|? ? Hnotin Hnd']; subst.
  cbn [flat_map]. rewrite filter_app, length_app.
  destruct (String.eqb n name) eqn:E.
  - apply String.eqb_eq in E. subst n.
    rewrite (filter_named_absent t name pk Hnotin). unfold package_warning.
    destruct (lt (line_coverage pd) (target_coverage t name));
      cbn [filter about_package_named List.length];
      rewrite ?String.eqb_refl; simpl; lia.
  - specialize (IH Hnd'). unfold package_warning at 1.
    destruct (lt (line_coverage pd) (target_coverage t n));
      cbn [filter about_package_named List.length]; rewrite ?E; simpl; lia.
Qed.

(** X8. Each check leaves at most one message: the line check at most one
    among failures and warnings together, the branch check likewise, and
    each package (their names being distinct, as dict keys are) at most
    one warning and never a failure. *)
Theorem one_message_per_check (t : targets) (cd : coverage_data) :
  let r := check_coverage t cd in
  (List.length (filter about_line (failures r ++ warnings r)) <= 1)%nat
  /\ (List.length (filter about_branch (failures r ++ warnings r)) <= 1)%nat
  /\ (NoDup (dict_keys (packages cd)) ->
      forall name,
        (List.length (filter (about_package_named name) (warnings r)) <= 1)%nat)
  /\ filter about_package (failures r) = [].
Proof.
  intros r. subst r.
  rewrite check_coverage_warnings, check_coverage_failures.
  rewrite !filter_app.
  rewrite !(filter_package_warnings about_line) by (now intros [ ]).
  rewrite !(filter_package_warnings about_branch) by (now intros [ ]).
  assert (Hone : NoDup (dict_keys (packages cd)) -> forall name,
             (List.length (filter (about_package_named name)
                             (flat_map (package_warning t) (packages cd))) <= 1)%nat)
    by (intros Hnd name; now apply filter_named_once).
  destruct (lt (overall_line_coverage cd) (line t));
    [|destruct (lt (overall_line_coverage cd) (line t + 5))];
    (destruct (lt (overall_branch_coverage cd) (branch t));
       [|destruct (lt (overall_branch_coverage cd) (branch t + 5))]);
    cbn [filter about_line about_branch about_package about_package_named app
           List.length];
    repeat split; auto; try lia.
Qed.

Lemma one_message_per_check_witness :
  (List.length (filter (about_package_named "ccusage_rs::core")
                  (warnings (check_coverage default_targets two_packages))) <= 1)%nat.
Proof.
  refine (proj1 (proj2 (proj2 (one_message_per_check default_targets two_packages)))
            _ "ccusage_rs::core"%string).
  repeat constructor; simpl; intuition discriminate.
Defined.

End CheckResults.

Section CoverageRun.
Import Py CoverageChecker.

(** X9. Once the command line is parsed, the exit status of [main] is 0 or
    1. It is 0 exactly when the report loads and neither overall value is
    below its target ([<], as the code tests it), which is exactly when
    [check_and_report] under the same targets returns [True]; every way of
    not loading the report gives 1, and [--json] does not change the
    status. *)
Theorem main_exit_status (py_float : string -> option float) (a : args)
  (file : artifact) :
  (main py_float a file = 0%nat \/ main py_float a file = 1%nat)
  /\ (main py_float a file = 0%nat <->
      exists cd,
        parse_coverage_report py_float file = Loaded cd
        /\ ~ overall_line_coverage cd < line_target a
        /\ ~ overall_branch_coverage cd < branch_target a)
  /\ (main py_float a file = 0%nat <->
      check_and_report py_float (targets_of_args a) file = true)
  /\ (forall j,
        main py_float {| overall_target := overall_target a;
                         line_target := line_target a;
                         branch_target := branch_target a;
                         function_target := function_target a; json := j |} file
        = main py_float a file).
Proof.
  assert (Hmain : main py_float a file =
                  match parse_coverage_report py_float file with
                  | Loaded cd =>
                      if negb (lt (overall_line_coverage cd) (line_target a))
                         && negb (lt (overall_branch_coverage cd) (branch_target a))
                      then 0%nat else 1%nat
                  | _ => 1%nat
                  end).
  { unfold main. destruct (parse_coverage_report py_float file); auto.
    now rewrite check_coverage_passed_eq. }
  assert (Hcheck : check_and_report py_float (targets_of_args a) file =
                   match parse_coverage_report py_float file with
                   | Loaded cd =>
                       negb (lt (overall_line_coverage cd) (line_target a))
                       && negb (lt (overall_branch_coverage cd) (branch_target a))
                   | _ => false
                   end).
  { unfold check_and_report. destruct (parse_coverage_report py_float file); auto.
    now rewrite check_coverage_passed_eq. }
  split; [|split; [|split]].
  - rewrite Hmain. destruct (parse_coverage_report py_float file); auto.
    destruct (_ && _); auto.
  - rewrite Hmain. unfold flt.
    destruct (parse_coverage_report py_float file) as [cd| | |].
    + destruct (lt (overall_line_coverage cd) (line_target a)) eqn:El;
        destruct (lt (overall_branch_coverage cd) (branch_target a)) eqn:Eb;
        cbn [negb andb]; split; try discriminate;
        try (intros (cd' & [= <-] & Hl & Hb); congruence);
        try (intros _; exists cd; rewrite El, Eb; repeat split; discriminate).
    + split; [discriminate|]. intros (cd & H & _). discriminate.
    + split; [discriminate|]. intros (cd & H & _). discriminate.
    + split; [discriminate|]. intros (cd & H & _). discriminate.
  - rewrite Hmain, Hcheck. destruct (parse_coverage_report py_float file);
      try (split; discriminate).
    destruct (_ && _); split; congruence.
  - intros j. reflexivity.
Qed.

Lemma flat_map_map (A B C : Type) (f : B -> list C) (g : A -> B) (l : list A) :
  flat_map f (map g l) = flat_map (fun x => f (g x)) l.
Proof. induction l as [|x l IH]; simpl; congruence. Qed.

(** Reading items back from a section skips its heading and blank line. *)
Lemma flat_map_section (A B : Type) (f : report_line -> list B)
  (heading : report_line) (row : A -> report_line) (items : list A) :
  f heading = [] -> f Blank = [] ->
  flat_map f (report_section heading row items) = flat_map (fun x => f (row x)) items.
Proof.
  intros Hh Hb. unfold report_section.
  destruct items as [|x items]; [reflexivity|].
  cbn [flat_map]. rewrite Hh, flat_map_app, flat_map_map. cbn [flat_map app].
  now rewrite Hb, !app_nil_r.
Qed.

Lemma flat_map_singleton (A : Type) (l : list A) : flat_map (fun x => [x]) l = l.
Proof. induction l as [|x l IH]; simpl; congruence. Qed.

Lemma flat_map_nothing (A B : Type) (l : list A) :
  flat_map (fun _ : A => @nil B) l = [].
Proof. induction l as [|x l IH]; simpl; auto. Qed.

(** The failure lines of a report are one per failure, in order. *)
Lemma report_failure_items (t : targets) (cd : coverage_data) (r : results) :
  failure_items (generate_report t cd r) = failures r.
Proof.
  unfold generate_report, failure_items.
  rewrite !flat_map_app, !flat_map_section by reflexivity.
  cbn beta iota. rewrite !flat_map_singleton, !flat_map_nothing.
  destruct (passed r); cbn [flat_map app]; now rewrite ?app_nil_r.
Qed.

(** X11. The report of a check is consistent with the gate: it opens with
    the "passed" banner exactly when it lists no failure, and with the
    "failed" banner exactly when it has a failures section; it always opens
    with one of the two. *)
Theorem report_banner_consistent (t : targets) (cd : coverage_data) :
  let r := check_coverage t cd in
  let report := generate_report t cd r in
  (hd Blank report = PassedBanner <-> failure_items report = [])
  /\ (hd Blank report = FailedBanner <-> In FailuresHeading report)
  /\ (hd Blank report = PassedBanner \/ hd Blank report = FailedBanner).
Proof.
  intros r report.
  assert (Hitems : failure_items report = failures r)
    by apply report_failure_items.
  assert (Hflag : passed r = true <-> failures r = []).
  { unfold r. rewrite check_coverage_passed_eq, check_coverage_failures.
    destruct (lt (overall_line_coverage cd) (line t));
      destruct (lt (overall_branch_coverage cd) (branch t)); simpl;
      split; congruence. }
  assert (Hhead : In FailuresHeading report <-> failures r <> []).
  { unfold report, generate_report. split.
    - intros Hin. cbn [app] in Hin.
      destruct Hin as [H|[H|[H|[H|[H|[H|Hin]]]]]];
        try discriminate; try (destruct (passed r); discriminate).
      apply in_app_or in Hin. destruct Hin as [Hin|Hin].
      + unfold report_section in Hin. destruct (packages cd); [contradiction|].
        destruct Hin as [H|Hin]; [discriminate|].
        apply in_app_or in Hin. destruct Hin as [Hin|[H|[]]]; [|discriminate].
        apply in_map_iff in Hin. destruct Hin as (x & H & _). discriminate.
      + apply in_app_or in Hin. destruct Hin as [Hin|Hin].
        * destruct (failures r); [contradiction|discriminate].
        * unfold report_section in Hin. destruct (warnings r); [contradiction|].
          destruct Hin as [H|Hin]; [discriminate|].
          apply in_app_or in Hin. destruct Hin as [Hin|[H|[]]]; [|discriminate].
          apply in_map_iff in Hin. destruct Hin as (x & H & _). discriminate.
    - intros Hne. cbn [app]. do 6 right.
      apply in_or_app. right. apply in_or_app. left.
      destruct (failures r); [congruence|]. now left. }
  rewrite Hitems, Hhead.
  change (hd Blank report) with (if passed r then PassedBanner else FailedBanner).
  destruct (passed r) eqn:Ep.
  - assert (Hf : failures r = []) by now apply Hflag.
    rewrite Hf. repeat split; auto; try discriminate. intros H. now elim H.
  - assert (Hf : failures r <> []) by (intros H; apply Hflag in H; congruence).
    repeat split; auto; try discriminate. intros H. contradiction.
Qed.

End CoverageRun.

(** * Further properties of the regression gate *)

Section MetricBlocks.
Import Py PerformanceRegressionChecker.

Lemma compare_time_change th base cur cmp0 :
  compare_time th base cur cmp0 =
  (m <- metric_change "Mean" base cur ;;
   Return match m with
          | None => cmp0
          | Some (bj, cj, x) =>
              {| time_regression := gt x (time th);
                 memory_regression := memory_regression cmp0;
                 time_change := x;
                 memory_change := memory_change cmp0;
                 details := dict_set "time"
                              {| baseline := bj; current := cj;
                                 change_percent := x * 100;
                                 threshold := time th * 100 |} (details cmp0) |}
          end).
Proof.
  unfold compare_time, metric_change.
  destruct (dict_get "Mean" base) as [be|]; [|reflexivity].
  destruct (dict_get "Mean" cur) as [ce|]; [|reflexivity].
  destruct (subscript be "point_estimate") as [bj|]; [|reflexivity]. cbn [bind].
  destruct (subscript ce "point_estimate") as [cj|]; [|reflexivity]. cbn [bind].
  destruct (number bj) as [b|]; [|reflexivity]. cbn [bind].
  destruct (gt b 0); [|reflexivity].
  destruct (number cj) as [c|]; reflexivity.
Qed.

Lemma compare_memory_change th base cur cmp0 :
  compare_memory th base cur cmp0 =
  (m <- metric_change "memory" base cur ;;
   Return match m with
          | None => cmp0
          | Some (bj, cj, x) =>
              {| time_regression := time_regression cmp0;
                 memory_regression := gt x (memory th);
                 time_change := time_change cmp0;
                 memory_change := x;
                 details := dict_set "memory"
                              {| baseline := bj; current := cj;
                                 change_percent := x * 100;
                                 threshold := memory th * 100 |} (details cmp0) |}
          end).
Proof.
  unfold compare_memory, metric_change.
  destruct (dict_get "memory" base) as [be|]; [|reflexivity].
  destruct (dict_get "memory" cur) as [ce|]; [|reflexivity].
  destruct (subscript be "point_estimate") as [bj|]; [|reflexivity]. cbn [bind].
  destruct (subscript ce "point_estimate") as [cj|]; [|reflexivity]. cbn [bind].
  destruct (number bj) as [b|]; [|reflexivity]. cbn [bind].
  destruct (gt b 0); [|reflexivity].
  destruct (number cj) as [c|]; reflexivity.
Qed.

(** The comparison in terms of the two changes. *)
Lemma compare_benchmarks_changes th base cur cmp :
  compare_benchmarks th base cur = Return cmp ->
  exists mt mm,
    metric_change "Mean" base cur = Return mt
    /\ metric_change "memory" base cur = Return mm
    /\ time_regression cmp =
         match mt with Some (_, _, x) => gt x (time th) | None => false end
    /\ time_change cmp = match mt with Some (_, _, x) => x | None => 0 end
    /\ memory_regression cmp =
         match mm with Some (_, _, x) => gt x (memory th) | None => false end
    /\ memory_change cmp = match mm with Some (_, _, x) => x | None => 0 end
    /\ dict_get "time" (details cmp) =
         match mt with
         | Some (bj, cj, x) =>
             Some {| baseline := bj; current := cj; change_percent := x * 100;
                     threshold := time th * 100 |}
         | None => None
         end
    /\ dict_get "memory" (details cmp) =
         match mm with
         | Some (bj, cj, x) =>
             Some {| baseline := bj; current := cj; change_percent := x * 100;
                     threshold := memory th * 100 |}
         | None => None
         end.
Proof.
  unfold compare_benchmarks. rewrite compare_time_change.
  destruct (metric_change "Mean" base cur) as [mt|]; [|discriminate]. cbn [bind].
  rewrite compare_memory_change.
  destruct (metric_change "memory" base cur) as [mm|]; [|discriminate]. cbn [bind].
  intros [= <-]. exists mt, mm.
  destruct mt as [[[bj cj] x]|]; destruct mm as [[[bj' cj'] x']|];
    cbn; repeat split; reflexivity.
Qed.

Lemma compare_benchmarks_returns th base cur mt mm :
  metric_change "Mean" base cur = Return mt ->
  metric_change "memory" base cur = Return mm ->
  exists cmp, compare_benchmarks th base cur = Return cmp.
Proof.
  intros Ht Hm. unfold compare_benchmarks.
  rewrite compare_time_change, Ht. cbn [bind].
  rewrite compare_memory_change, Hm. cbn [bind]. eauto.
Qed.

End MetricBlocks.

Section ComparisonInvariants.
Import Py PerformanceRegressionChecker.

(** X13. A comparison returned by [compare_benchmarks] is coherent. For
    the time metric: either there is no ["time"] entry in the details, and
    then [time_change] is 0 and [time_regression] is false; or there is
    one, and then its [change_percent] is 100 times [time_change], its
    [threshold] is 100 times the time threshold, and [time_regression]
    says whether [time_change] is above the threshold. In particular a set
    flag always comes with its details entry. The same holds for the
    memory metric. *)
Theorem comparison_coherent (th : thresholds) (base cur : estimates) (cmp : Comparison) :
  compare_benchmarks th base cur = Return cmp ->
  match dict_get "time" (details cmp) with
  | None => time_change cmp = 0 /\ time_regression cmp = false
  | Some d =>
      change_percent d = time_change cmp * 100
      /\ threshold d = time th * 100
      /\ time_regression cmp = gt (time_change cmp) (time th)
  end
  /\ match dict_get "memory" (details cmp) with
     | None => memory_change cmp = 0 /\ memory_regression cmp = false
     | Some d =>
         change_percent d = memory_change cmp * 100
         /\ threshold d = memory th * 100
         /\ memory_regression cmp = gt (memory_change cmp) (memory th)
     end.
Proof.
  intros Hcmp.
  destruct (compare_benchmarks_changes _ _ _ _ Hcmp)
    as (mt & mm & _ & _ & Htr & Htc & Hmr & Hmc & Htd & Hmd).
  rewrite Htd, Hmd, Htr, Htc, Hmr, Hmc.
  destruct mt as [[[bj cj] x]|]; destruct mm as [[[bj' cj'] x']|];
    cbn; repeat split; reflexivity.
Qed.

Lemma comparison_coherent_witness :
  exists cmp d,
    compare_benchmarks default_thresholds (mean_estimate 100) (mean_estimate 115)
    = Return cmp
    /\ dict_get "time" (details cmp) = Some d
    /\ change_percent d = time_change cmp * 100.
Proof.
  pose proof (comparison_coherent default_thresholds (mean_estimate 100)
                (mean_estimate 115)) as H.
  eexists. eexists. split; [vm_compute; reflexivity|].
  split; [reflexivity|].
  exact (proj1 (proj1 (H _ eq_refl))).
Defined.

(** X14. The thresholds only decide the flags. If [compare_benchmarks]
    returns a comparison under some thresholds, it returns one under any
    other thresholds too, with the same changes; and where a threshold is
    no higher than before, a flag that was set is still set. *)
Theorem lower_thresholds_keep_flags (th th' : thresholds) (base cur : estimates)
  (cmp' : Comparison) :
  compare_benchmarks th' base cur = Return cmp' ->
  exists cmp,
    compare_benchmarks th base cur = Return cmp
    /\ time_change cmp = time_change cmp'
    /\ memory_change cmp = memory_change cmp'
    /\ (time th <= time th' ->
        time_regression cmp' = true -> time_regression cmp = true)
    /\ (memory th <= memory th' ->
        memory_regression cmp' = true -> memory_regression cmp = true).
Proof.
  intros Hcmp'.
  destruct (compare_benchmarks_changes _ _ _ _ Hcmp')
    as (mt & mm & Emt & Emm & Htr' & Htc' & Hmr' & Hmc' & _).
  destruct (compare_benchmarks_returns th base cur mt mm Emt Emm) as [cmp Hcmp].
  exists cmp. split; [exact Hcmp|].
  destruct (compare_benchmarks_changes _ _ _ _ Hcmp)
    as (mt0 & mm0 & Emt0 & Emm0 & Htr & Htc & Hmr & Hmc & _).
  rewrite Emt in Emt0. rewrite Emm in Emm0.
  injection Emt0 as <-. injection Emm0 as <-.
  rewrite Htr, Htc, Hmr, Hmc, Htr', Htc', Hmr', Hmc'.
  repeat split.
  - intros Ht. destruct mt as [[[bj cj] x]|]; [|discriminate].
    rewrite !gt_true. intros Hx. now apply fle_flt_trans with (time th').
  - intros Hm. destruct mm as [[[bj cj] x]|]; [|discriminate].
    rewrite !gt_true. intros Hx. now apply fle_flt_trans with (memory th').
Qed.

Lemma lower_thresholds_keep_flags_witness :
  exists cmp,
    compare_benchmarks {| time := 5 # 100; memory := 15 # 100 |}
      (mean_estimate 100) (mean_estimate 115) = Return cmp
    /\ time_regression cmp = true.
Proof.
  destruct (lower_thresholds_keep_flags {| time := 5 # 100; memory := 15 # 100 |}
              default_thresholds (mean_estimate 100) (mean_estimate 115)
              {| time_regression := true; memory_regression := false;
                 time_change := (115 - 100) / 100; memory_change := 0;
                 details := [("time"%string,
                              {| baseline := JNumber 100; current := JNumber 115;
                                 change_percent := (115 - 100) / 100 * 100;
                                 threshold := (10 # 100) * 100 |})] |})
    as (cmp & Hcmp & _ & _ & Hflag & _).
  - reflexivity.
  - exists cmp. split; [exact Hcmp|]. apply Hflag; reflexivity.
Defined.

End ComparisonInvariants.

Section ScanResults.
Import Py PerformanceRegressionChecker.

(** One turn of the loop, by what it does to the names in the list. *)
Lemma check_benchmark_names th dir regs name regs' :
  check_benchmark th dir regs name = Return regs' ->
  map benchmark regs' =
  map benchmark regs ++ (if flagged th dir name then [name] else []).
Proof.
  unfold check_benchmark, flagged, has_both.
  destruct (is_empty (load_benchmark_results dir [name; "base"%string]));
    [intros [= <-]; cbn; now rewrite app_nil_r|].
  destruct (is_empty (load_benchmark_results dir [name]));
    [intros [= <-]; cbn; now rewrite app_nil_r|].
  cbn [negb andb].
  destruct (compare_benchmarks th _ _) as [cmp|]; [|discriminate]. cbn [bind].
  destruct (time_regression cmp || memory_regression cmp); intros [= <-].
  - now rewrite map_app.
  - now rewrite app_nil_r.
Qed.

Lemma check_each_names th dir names : forall regs regs',
  check_each th dir names regs = Return regs' ->
  map benchmark regs' = map benchmark regs ++ filter (flagged th dir) names.
Proof.
  induction names as [|name names IH]; intros regs regs' Hscan;
    cbn [check_each] in Hscan.
  - injection Hscan as <-. cbn. now rewrite app_nil_r.
  - destruct (check_benchmark th dir regs name) as [regs1|] eqn:E; [|discriminate].
    cbn [bind] in Hscan. rewrite (IH _ _ Hscan), (check_benchmark_names _ _ _ _ _ E).
    cbn [filter]. rewrite <- app_assoc.
    now destruct (flagged th dir name).
Qed.

Lemma check_benchmark_returns th dir regs name :
  (exists regs', check_benchmark th dir regs name = Return regs')
  <-> comparable th dir name.
Proof.
  unfold check_benchmark, comparable, has_both.
  destruct (is_empty (load_benchmark_results dir [name; "base"%string]));
    [split; [discriminate|eauto]|].
  destruct (is_empty (load_benchmark_results dir [name]));
    [split; [discriminate|eauto]|].
  cbn [negb andb].
  destruct (compare_benchmarks th _ _) as [cmp|]; cbn [bind].
  - split; [eauto|]. intros _.
    destruct (time_regression cmp || memory_regression cmp); eauto.
  - split.
    + intros [regs' H]. discriminate.
    + intros H. destruct (H eq_refl) as [cmp Hcmp]. discriminate.
Qed.

Lemma check_each_returns th dir names : forall regs,
  (exists regs', check_each th dir names regs = Return regs')
  <-> (forall name, In name names -> comparable th dir name).
Proof.
  induction names as [|name names IH]; intros regs; cbn [check_each].
  - split; [intros _ name []|eauto].
  - split.
    + intros [regs' Hscan] n [<-|Hn].
      * apply (check_benchmark_returns th dir regs name).
        destruct (check_benchmark th dir regs name); [eauto|discriminate].
      * destruct (check_benchmark th dir regs name) as [regs1|]; [|discriminate].
        cbn [bind] in Hscan. apply (proj1 (IH regs1)); eauto.
    + intros Hall.
      destruct (proj2 (check_benchmark_returns th dir regs name)) as [regs1 ->].
      { apply Hall. now left. }
      cbn [bind]. apply IH. intros n Hn. apply Hall. now right.
Qed.

(** X15. The regression list follows the directory listing: the benchmark
    names of the list [check_regressions] returns are the names of the
    listed directories other than ["base"], kept in the order of the
    listing, that have both results and a comparison with a flag set. *)
Theorem regressions_follow_listing (th : thresholds) (entries : list (string * node))
  (regs : list regression) :
  check_regressions th (Some (Dir entries)) = Return regs ->
  map benchmark regs =
  filter (flagged th (Dir entries)) (map fst (filter is_benchmark_dir entries)).
Proof.
  unfold check_regressions. intros Hscan.
  now rewrite (check_each_names _ _ _ _ _ Hscan).
Qed.

Lemma regressions_follow_listing_witness :
  exists regs,
    check_regressions default_thresholds (Some example_criterion_dir) = Return regs
    /\ map benchmark regs = ["foo"%string].
Proof.
  eexists. split; [vm_compute; reflexivity|].
  refine (eq_trans
            (regressions_follow_listing default_thresholds
               [("foo"%string, benchmark_dir (Some 100) 115);
                ("base"%string, benchmark_dir (Some 100) 200);
                ("bar"%string, benchmark_dir (Some 100) 105);
                ("baz"%string, benchmark_dir None 300)] _ _) _).
  - vm_compute. reflexivity.
  - reflexivity.
Defined.

End ScanResults.

Section RegressionRun.
Import Py PerformanceRegressionChecker.

Lemma report_regression_rows th base cur cmp name :
  compare_benchmarks th base cur = Return cmp ->
  report_regression {| benchmark := name; comparison := cmp |} =
  Return (BenchmarkHeading name
            :: (if time_regression cmp
                then [TimeRow (time_change cmp * 100) (time th * 100)] else [])
            ++ (if memory_regression cmp
                then [MemoryRow (memory_change cmp * 100) (memory th * 100)] else [])
            ++ [Blank]).
Proof.
  intros Hcmp.
  destruct (compare_benchmarks_changes _ _ _ _ Hcmp)
    as (mt & mm & _ & _ & Htr & Htc & Hmr & Hmc & Htd & Hmd).
  unfold report_regression, details_entry. cbn [comparison benchmark].
  rewrite Htd, Hmd, Htr, Htc, Hmr, Hmc.
  destruct mt as [[[bj cj] x]|]; destruct mm as [[[bj' cj'] x']|]; cbn [bind];
    try destruct (gt x (time th)); try destruct (gt x' (memory th)); reflexivity.
Qed.

Lemma benchmark_headings_app (l l' : list report_line) :
  benchmark_headings (l ++ l') = benchmark_headings l ++ benchmark_headings l'.
Proof. apply flat_map_app. Qed.

Lemma report_regressions_returns th dir (regs : list regression) :
  (forall r, In r regs -> regressed th dir r) ->
  exists lines,
    report_regressions regs = Return lines
    /\ benchmark_headings lines = map benchmark regs.
Proof.
  induction regs as [|r regs IH]; intros Hall; cbn [report_regressions].
  - exists []. auto.
  - destruct (Hall r (or_introl eq_refl)) as (_ & _ & Hcmp & _).
    destruct r as [name cmp]. cbn [benchmark comparison] in Hcmp.
    rewrite (report_regression_rows _ _ _ _ name Hcmp). cbn [bind].
    destruct IH as (lines & -> & Hlines); [intros r Hr; apply Hall; now right|].
    cbn [bind]. eexists. split; [reflexivity|].
    rewrite benchmark_headings_app, Hlines. cbn [map benchmark]. f_equal.
    destruct (time_regression cmp); destruct (memory_regression cmp); reflexivity.
Qed.

Lemma scan_entries_regressed th cd regs :
  check_regressions th cd = Return regs ->
  exists dir, forall r, In r regs -> regressed th dir r.
Proof.
  unfold check_regressions.
  destruct cd as [[content|entries]|]; try discriminate.
  intros Hscan. exists (Dir entries). intros r Hr.
  destruct (check_each_inv _ _ _ _ _ Hscan r Hr) as [[]|[_ H]]. exact H.
Qed.

(** X17. The report of a scan never fails. For the list [check_regressions]
    returns, [generate_report] returns its lines without a [KeyError]:
    every set flag finds its details entry. The report is the single "no
    regressions" line exactly when the list is empty; otherwise it names
    the benchmarks of the list, in the list's order, and each of them has
    at least one metric row. *)
Theorem report_of_scan (th : thresholds) (criterion_dir : option node)
  (regs : list regression) :
  check_regressions th criterion_dir = Return regs ->
  (exists lines,
     generate_report regs = Return lines
     /\ (regs = [] <-> lines = [NoRegressions])
     /\ benchmark_headings lines = map benchmark regs)
  /\ (forall r, In r regs ->
        exists rows,
          report_regression r = Return (BenchmarkHeading (benchmark r) :: rows ++ [Blank])
          /\ rows <> []
          /\ rows =
             (if time_regression (comparison r)
              then [TimeRow (time_change (comparison r) * 100) (time th * 100)]
              else [])
             ++ (if memory_regression (comparison r)
                 then [MemoryRow (memory_change (comparison r) * 100) (memory th * 100)]
                 else [])).
Proof.
  intros Hscan. destruct (scan_entries_regressed _ _ _ Hscan) as [dir Hall].
  split.
  - destruct regs as [|r regs].
    + exists [NoRegressions]. cbn. repeat split; auto.
    + destruct (report_regressions_returns th dir (r :: regs) Hall)
        as (lines & Hlines & Hheads).
      unfold generate_report. rewrite Hlines. cbn [bind].
      eexists. split; [reflexivity|]. split; [split; discriminate|].
      exact Hheads.
  - intros r Hr. destruct (Hall r Hr) as (_ & _ & Hcmp & Hflag).
    destruct r as [name cmp]. cbn [benchmark comparison] in *.
    rewrite (report_regression_rows _ _ _ _ name Hcmp).
    eexists. split; [|split; [|reflexivity]].
    + now rewrite <- app_assoc.
    + destruct Hflag as [-> | ->]; [discriminate|].
      destruct (time_regression cmp); discriminate.
Qed.

Lemma report_of_scan_witness :
  exists lines,
    generate_report
      [{| benchmark := "foo";
          comparison :=
            {| time_regression := true; memory_regression := false;
               time_change := (115 - 100) / 100; memory_change := 0;
               details := [("time"%string,
                            {| baseline := JNumber 100; current := JNumber 115;
                               change_percent := (115 - 100) / 100 * 100;
                               threshold := (10 # 100) * 100 |})] |} |}]
    = Return lines.
Proof.
  destruct (proj1 (report_of_scan default_thresholds (Some example_criterion_dir) _
                     eq_refl))
    as (lines & Hlines & _).
  exists lines. exact Hlines.
Defined.


Lemma flagged_lower_threshold th th' dir name :
  time th <= time th' -> memory th <= memory th' ->
  flagged th' dir name = true -> flagged th dir name = true.
Proof.
  intros Ht Hm. unfold flagged.
  destruct (has_both dir name); [|discriminate]. cbn [andb].
  destruct (compare_benchmarks th' _ _) as [cmp'|] eqn:Hcmp'; [|discriminate].
  destruct (compare_benchmarks_changes _ _ _ _ Hcmp')
    as (mt & mm & Emt & Emm & Htr' & _ & Hmr' & _).
  destruct (compare_benchmarks_returns th _ _ mt mm Emt Emm) as [cmp Hcmp].
  rewrite Hcmp.
  destruct (compare_benchmarks_changes _ _ _ _ Hcmp)
    as (mt0 & mm0 & Emt0 & Emm0 & Htr & _ & Hmr & _).
  rewrite Emt in Emt0. rewrite Emm in Emm0.
  injection Emt0 as <-. injection Emm0 as <-.
  rewrite Htr, Hmr, Htr', Hmr', !orb_true_iff.
  intros [H|H]; [left|right].
  - destruct mt as [[[bj cj] x]|]; [|discriminate].
    apply gt_true. apply gt_true in H. now apply fle_flt_trans with (time th').
  - destruct mm as [[[bj cj] x]|]; [|discriminate].
    apply gt_true. apply gt_true in H. now apply fle_flt_trans with (memory th').
Qed.

Lemma comparable_any_threshold th th' dir name :
  comparable th' dir name -> comparable th dir name.
Proof.
  unfold comparable. intros H Hboth. destruct (H Hboth) as [cmp' Hcmp'].
  destruct (compare_benchmarks_changes _ _ _ _ Hcmp') as (mt & mm & Emt & Emm & _).
  exact (compare_benchmarks_returns th _ _ mt mm Emt Emm).
Qed.

(** X19. Lowering the thresholds never hides a regression: if the scan
    returns a list under some thresholds, it returns one under thresholds
    that are no higher, and every benchmark of the first list is in the
    second. *)
Theorem lower_thresholds_keep_regressions (th th' : thresholds)
  (criterion_dir : option node) (regs' : list regression) :
  time th <= time th' -> memory th <= memory th' ->
  check_regressions th' criterion_dir = Return regs' ->
  exists regs,
    check_regressions th criterion_dir = Return regs
    /\ incl (map benchmark regs') (map benchmark regs).
Proof.
  intros Ht Hm Hscan'.
  destruct criterion_dir as [[content|entries]|]; try discriminate.
  cbn [check_regressions] in *.
  destruct (proj2 (check_each_returns th (Dir entries)
                     (map fst (filter is_benchmark_dir entries)) []))
    as [regs Hscan].
  { intros name Hname. apply (comparable_any_threshold th th').
    apply (proj1 (check_each_returns th' (Dir entries)
                    (map fst (filter is_benchmark_dir entries)) [])); eauto. }
  exists regs. split; [exact Hscan|].
  rewrite (check_each_names _ _ _ _ _ Hscan), (check_each_names _ _ _ _ _ Hscan').
  cbn [map app]. intros name Hin. apply filter_In in Hin. apply filter_In.
  destruct Hin as [Hin Hflag]. split; auto.
  now apply (flagged_lower_threshold th th').
Qed.

Lemma lower_thresholds_keep_regressions_witness :
  exists regs,
    check_regressions {| time := 2 # 100; memory := 15 # 100 |}
      (Some example_criterion_dir) = Return regs
    /\ incl ["foo"%string] (map benchmark regs).
Proof.
  refine (lower_thresholds_keep_regressions {| time := 2 # 100; memory := 15 # 100 |}
            default_thresholds (Some example_criterion_dir)
            [{| benchmark := "foo";
                comparison :=
                  {| time_regression := true; memory_regression := false;
                     time_change := (115 - 100) / 100; memory_change := 0;
                     details := [("time"%string,
                                  {| baseline := JNumber 100; current := JNumber 115;
                                     change_percent := (115 - 100) / 100 * 100;
                                     threshold := (10 # 100) * 100 |})] |} |}]
            _ _ _); reflexivity.
Defined.

End RegressionRun.
